(** * A model of manuale's ACME client ([manuale/acme.py])

    The client talks to a certificate authority over HTTP.  Its methods are
    embedded here as functions in a state-and-exception monad; the Python
    built-ins they call ([str] methods, [urllib.parse]) are modelled first. *)

From Stdlib Require Import ZArith String Ascii List DecimalString Lia Bool.
From stdpp Require Import gmap strings list fin_maps.

Local Open Scope string_scope.
Local Open Scope Z_scope.

(** ** Python [str] operations

    A Python [str] is modelled as a [string] whose characters are the code
    points below 256 (HTTP header values and URLs as [requests] decodes
    them). *)
Module Py.

(** [s.startswith(p)] *)
Definition startswith (s p : string) : bool := String.prefix p s.

(** [sub in s] *)
Fixpoint contains (sub s : string) : bool :=
  String.prefix sub s ||
  match s with
  | EmptyString => false
  | String _ s' => contains sub s'
  end.

(** [c in s] for a single character *)
Fixpoint has_char (c : ascii) (s : string) : bool :=
  match s with
  | EmptyString => false
  | String a s' => Ascii.eqb a c || has_char c s'
  end.

(** [s.find(c)] for a single character; [None] stands for Python's -1. *)
Fixpoint find (c : ascii) (s : string) : option nat :=
  match s with
  | EmptyString => None
  | String a s' => if Ascii.eqb a c then Some 0%nat else S <$> find c s'
  end.

(** [s[n:]] *)
Fixpoint drop (n : nat) (s : string) : string :=
  match n, s with
  | O, _ => s
  | S n', String _ s' => drop n' s'
  | S _, EmptyString => EmptyString
  end.

(** [s[:n]] *)
Fixpoint take (n : nat) (s : string) : string :=
  match n, s with
  | S n', String a s' => String a (take n' s')
  | _, _ => EmptyString
  end.

(** [s[a:b]] for non-negative bounds; empty when [b <= a]. *)
Definition slice (a b : nat) (s : string) : string :=
  take (b - a) (drop a s).

(** [s.find(c, start)] *)
Definition find_from (c : ascii) (start : nat) (s : string) : option nat :=
  (fun i => (start + i)%nat) <$> find c (drop start s).

(** [s.rfind(c)] *)
Fixpoint rfind (c : ascii) (s : string) : option nat :=
  match s with
  | EmptyString => None
  | String a s' =>
      match rfind c s' with
      | Some i => Some (S i)
      | None => if Ascii.eqb a c then Some 0%nat else None
      end
  end.

(** [s.split(sep)] for a one-character separator: never the empty list. *)
Fixpoint split (sep : ascii) (s : string) : list string :=
  match s with
  | EmptyString => [EmptyString]
  | String a s' =>
      if Ascii.eqb a sep then EmptyString :: split sep s'
      else match split sep s' with
           | w :: ws => String a w :: ws
           | [] => [String a EmptyString]
           end
  end.

(** [s.split(sep, 1)] when [sep in s]: the text before and after the first
    separator. *)
Definition split1 (sep : ascii) (s : string) : string * string :=
  match find sep s with
  | Some i => (take i s, drop (S i) s)
  | None => (s, EmptyString)
  end.

(** [sep.join(l)] for a one-character separator *)
Fixpoint join (sep : ascii) (l : list string) : string :=
  match l with
  | [] => EmptyString
  | [w] => w
  | w :: ws => w ++ String sep (join sep ws)
  end.

(** [c.isspace()] on the code points below 256. *)
Definition isspace (c : ascii) : bool :=
  let n := nat_of_ascii c in
  ((9 <=? n) && (n <=? 13) || (28 <=? n) && (n <=? 32)
   || (n =? 133) || (n =? 160))%nat.

(** [s.lstrip()], [s.rstrip()], [s.strip()] *)
Fixpoint lstrip_by (p : ascii -> bool) (s : string) : string :=
  match s with
  | EmptyString => EmptyString
  | String a s' => if p a then lstrip_by p s' else s
  end.

Fixpoint rstrip_by (p : ascii -> bool) (s : string) : string :=
  match s with
  | EmptyString => EmptyString
  | String a s' =>
      match rstrip_by p s' with
      | EmptyString => if p a then EmptyString else String a EmptyString
      | r => String a r
      end
  end.

Definition strip (s : string) : string :=
  rstrip_by isspace (lstrip_by isspace s).

(** [s.replace(c, '')] for a single character *)
Fixpoint remove_char (c : ascii) (s : string) : string :=
  match s with
  | EmptyString => EmptyString
  | String a s' =>
      if Ascii.eqb a c then remove_char c s' else String a (remove_char c s')
  end.

(** [s.lower()]: only A-Z change among the characters a scheme may have. *)
Definition lower_char (c : ascii) : ascii :=
  let n := nat_of_ascii c in
  if ((65 <=? n) && (n <=? 90))%nat then ascii_of_nat (n + 32) else c.

Fixpoint lower (s : string) : string :=
  match s with
  | EmptyString => EmptyString
  | String a s' => String (lower_char a) (lower s')
  end.

(** [all(p(c) for c in s)] *)
Fixpoint all_chars (p : ascii -> bool) (s : string) : bool :=
  match s with
  | EmptyString => true
  | String a s' => p a && all_chars p s'
  end.

(** [str(n)] for an [int] *)
Definition str_int (n : Z) : string := NilZero.string_of_int (Z.to_int n).

(** [bool(s)]: a string is true when it is not empty. *)
Definition truthy (s : string) : bool :=
  match s with EmptyString => false | _ => true end.

End Py.

(** ** Exceptions and outcomes *)

(** The built-in exceptions the client can meet. *)
Inductive pyexn :=
| ValueError (msg : string)
| AttributeError (msg : string)
| TypeError (msg : string).

(** A call either returns a value or raises. *)
Inductive outcome (E A : Type) :=
| Return (a : A)
| Raise (e : E).
Arguments Return {E A} a.
Arguments Raise {E A} e.

(** ** Link headers *)

(** [_get_link(header, type)]: [header] is [None] when the response has no
    [Link] header.  Falling off the end of the loop returns [None];
    [link.index('>')] raises [ValueError] when the entry has no ['>']. *)
Fixpoint _get_link_loop (links : list string) (type : string)
  : outcome pyexn (option string) :=
  match links with
  | [] => Return None
  | link :: rest =>
      let link := Py.strip link in
      if Py.contains type link then
        match Py.find ">" link with
        | Some i => Return (Some (Py.slice 1 i link))
        | None => Raise (ValueError "substring not found")
        end
      else _get_link_loop rest type
  end.

Definition _get_link (header : option string) (type : string)
  : outcome pyexn (option string) :=
  let links := Py.split "," (default EmptyString header) in
  _get_link_loop links type.

(** ** A model of [urllib.parse]

    [urlparse] and [urljoin] belong to the Python standard library.  The
    model follows the str code path of CPython 3.11's [urllib/parse.py]
    function by function.  Two validation steps of [urlsplit] are not
    computed here: [_checknetloc] (NFKC normalisation, which never rejects a
    netloc of code points below 256) and [_check_bracketed_host] (the
    [ipaddress] parser), which is a parameter. *)

(** [_check_bracketed_host(hostname)]: [Some msg] when the library raises
    [ValueError(msg)]. *)
Class BracketedHost := check_bracketed_host : string -> option string.

Module urllib.

Definition uses_relative : list string :=
  [EmptyString; "ftp"; "http"; "gopher"; "nntp"; "imap"; "wais"; "file";
   "https"; "shttp"; "mms"; "prospero"; "rtsp"; "rtspu"; "sftp"; "svn";
   "svn+ssh"; "ws"; "wss"].

Definition uses_netloc : list string :=
  [EmptyString; "ftp"; "http"; "gopher"; "nntp"; "telnet"; "imap"; "wais";
   "file"; "mms"; "https"; "shttp"; "snews"; "prospero"; "rtsp"; "rtspu";
   "rsync"; "svn"; "svn+ssh"; "sftp"; "nfs"; "git"; "git+ssh"; "ws"; "wss"].

Definition uses_params : list string :=
  [EmptyString; "ftp"; "hdl"; "prospero"; "http"; "imap"; "https"; "shttp";
   "rtsp"; "rtspu"; "sip"; "sips"; "mms"; "sftp"; "tel"].

Definition scheme_chars : string :=
  "abcdefghijklmnopqrstuvwxyzABCDEFGHIJKLMNOPQRSTUVWXYZ0123456789+-.".

(** [s in l] for a list of strings *)
Definition mem (s : string) (l : list string) : bool :=
  existsb (String.eqb s) l.

(** membership in [_WHATWG_C0_CONTROL_OR_SPACE] *)
Definition c0_or_space (c : ascii) : bool := (nat_of_ascii c <=? 32)%nat.

(** [c.isascii() and c.isalpha()] *)
Definition ascii_alpha (c : ascii) : bool :=
  let n := nat_of_ascii c in
  ((65 <=? n) && (n <=? 90) || (97 <=? n) && (n <=? 122))%nat.

(** removal of [_UNSAFE_URL_BYTES_TO_REMOVE] *)
Definition remove_unsafe (s : string) : string :=
  Py.remove_char "010" (Py.remove_char "013" (Py.remove_char "009" s)).

Record ParseResult := mkParseResult {
  scheme : string;
  netloc : string;
  path : string;
  params : string;
  query : string;
  fragment : string
}.

(** [_splitnetloc(url, start)] *)
Definition _splitnetloc (url : string) (start : nat) : string * string :=
  let step delim c :=
    match Py.find_from c start url with
    | Some wdelim => Nat.min delim wdelim
    | None => delim
    end in
  let delim := fold_left step ["/"; "?"; "#"]%char (String.length url) in
  (Py.slice start delim url, Py.drop delim url).

(** [s.rpartition('@')[2]] *)
Definition after_last (c : ascii) (s : string) : string :=
  match Py.rfind c s with
  | Some i => Py.drop (S i) s
  | None => s
  end.

(** [s.partition(c)] *)
Definition partition (c : ascii) (s : string) : string * bool * string :=
  match Py.find c s with
  | Some i => (Py.take i s, true, Py.drop (S i) s)
  | None => (s, false, EmptyString)
  end.

Definition invalid_ipv6 : pyexn := ValueError "Invalid IPv6 URL".

(** [_check_bracketed_netloc(netloc)] *)
Definition _check_bracketed_netloc {bh : BracketedHost} (netloc : string)
  : outcome pyexn unit :=
  let hostname_and_port := after_last "@" netloc in
  let '(before_bracket, have_open_br, bracketed) :=
    partition "[" hostname_and_port in
  let checked hostname :=
    match check_bracketed_host hostname with
    | Some msg => Raise (ValueError msg)
    | None => Return tt
    end in
  if have_open_br then
    if Py.truthy before_bracket then Raise invalid_ipv6
    else
      let '(hostname, _, port) := partition "]" bracketed in
      if Py.truthy port && negb (Py.startswith port ":")
      then Raise invalid_ipv6
      else checked hostname
  else
    let '(hostname, _, _) := partition ":" hostname_and_port in
    checked hostname.

(** [urlsplit(url, scheme)], returning (scheme, netloc, url, query,
    fragment). *)
Definition urlsplit {bh : BracketedHost} (url scheme : string)
  : outcome pyexn (string * string * string * string * string) :=
  let url := Py.lstrip_by c0_or_space url in
  let scheme := Py.rstrip_by c0_or_space (Py.lstrip_by c0_or_space scheme) in
  let url := remove_unsafe url in
  let scheme := remove_unsafe scheme in
  let '(scheme, url) :=
    match Py.find ":" url, url with
    | Some (S i' as i), String c0 _ =>
        if ascii_alpha c0 then
          if Py.all_chars (fun c => Py.has_char c scheme_chars) (Py.take i url)
          then (Py.lower (Py.take i url), Py.drop (S i) url)
          else (scheme, url)
        else (scheme, url)
    | _, _ => (scheme, url)
    end in
  let split_rest netloc url :=
    let '(url, fragment) :=
      if Py.has_char "#" url then Py.split1 "#" url else (url, EmptyString) in
    let '(url, query) :=
      if Py.has_char "?" url then Py.split1 "?" url else (url, EmptyString) in
    Return (scheme, netloc, url, query, fragment) in
  if String.eqb (Py.take 2 url) "//" then
    let '(netloc, url) := _splitnetloc url 2 in
    let lb := Py.has_char "[" netloc in
    let rb := Py.has_char "]" netloc in
    if lb && negb rb || rb && negb lb then Raise invalid_ipv6
    else if lb && rb then
      match _check_bracketed_netloc netloc with
      | Raise e => Raise e
      | Return _ => split_rest netloc url
      end
    else split_rest netloc url
  else split_rest EmptyString url.

(** [_splitparams(url)] *)
Definition _splitparams (url : string) : string * string :=
  if Py.has_char "/" url then
    match Py.find_from ";" (default 0%nat (Py.rfind "/" url)) url with
    | Some i => (Py.take i url, Py.drop (S i) url)
    | None => (url, EmptyString)
    end
  else
    match Py.find ";" url with
    | Some i => (Py.take i url, Py.drop (S i) url)
    | None => (Py.take (String.length url - 1) url, url)
    end.

(** [urlparse(url, scheme)] *)
Definition urlparse {bh : BracketedHost} (url scheme : string)
  : outcome pyexn ParseResult :=
  match urlsplit url scheme with
  | Raise e => Raise e
  | Return (scheme, netloc, url, query, fragment) =>
      let '(url, params) :=
        if mem scheme uses_params && Py.has_char ";" url
        then _splitparams url else (url, EmptyString) in
      Return (mkParseResult scheme netloc url params query fragment)
  end.

(** [urlunsplit((scheme, netloc, url, query, fragment))] *)
Definition urlunsplit (scheme netloc url query fragment : string) : string :=
  let url :=
    if Py.truthy netloc
       || (Py.truthy scheme && mem scheme uses_netloc
           && negb (String.eqb (Py.take 2 url) "//"))
    then
      let url :=
        if Py.truthy url && negb (String.eqb (Py.take 1 url) "/")
        then "/" ++ url else url in
      "//" ++ netloc ++ url
    else url in
  let url := if Py.truthy scheme then scheme ++ ":" ++ url else url in
  let url := if Py.truthy query then url ++ "?" ++ query else url in
  if Py.truthy fragment then url ++ "#" ++ fragment else url.

(** [urlunparse((scheme, netloc, url, params, query, fragment))] *)
Definition urlunparse (scheme netloc url params query fragment : string)
  : string :=
  let url := if Py.truthy params then url ++ ";" ++ params else url in
  urlunsplit scheme netloc url query fragment.

(** The loop of [urljoin] over the segments; [resolved] is kept reversed. *)
Fixpoint resolve (segments resolved : list string) : list string :=
  match segments with
  | [] => resolved
  | seg :: rest =>
      if String.eqb seg ".." then resolve rest (tail resolved)
      else if String.eqb seg "." then resolve rest resolved
      else resolve rest (seg :: resolved)
  end.

(** [segments[1:-1] = filter(None, segments[1:-1])] *)
Definition filter_middle (segments : list string) : list string :=
  match segments with
  | first :: (_ :: _) as rest =>
      first :: (List.filter Py.truthy (removelast rest)
                ++ [List.last rest EmptyString])%list
  | _ => segments
  end.

(** [urljoin(base, url)] *)
Definition urljoin {bh : BracketedHost} (base url : string)
  : outcome pyexn string :=
  if negb (Py.truthy base) then Return url
  else if negb (Py.truthy url) then Return base
  else
    match urlparse base EmptyString with
    | Raise e => Raise e
    | Return b =>
    match urlparse url (scheme b) with
    | Raise e => Raise e
    | Return u =>
      if negb (String.eqb (scheme u) (scheme b))
         || negb (mem (scheme u) uses_relative)
      then Return url
      else if mem (scheme u) uses_netloc && Py.truthy (netloc u)
      then Return (urlunparse (scheme u) (netloc u) (path u) (params u)
                     (query u) (fragment u))
      else
        let netloc' :=
          if mem (scheme u) uses_netloc then netloc b else netloc u in
        if negb (Py.truthy (path u)) && negb (Py.truthy (params u)) then
          let query' := if Py.truthy (query u) then query u else query b in
          Return (urlunparse (scheme u) netloc' (path b) (params b)
                    query' (fragment u))
        else
          let base_parts := Py.split "/" (path b) in
          let base_parts :=
            if negb (String.eqb (List.last base_parts EmptyString) EmptyString)
            then removelast base_parts else base_parts in
          let segments :=
            if String.eqb (Py.take 1 (path u)) "/"
            then Py.split "/" (path u)
            else filter_middle (base_parts ++ Py.split "/" (path u))%list in
          let resolved_path := rev (resolve segments []) in
          let last_seg := List.last segments EmptyString in
          let resolved_path :=
            if String.eqb last_seg "." || String.eqb last_seg ".."
            then (resolved_path ++ [EmptyString])%list else resolved_path in
          let joined := Py.join "/" resolved_path in
          Return (urlunparse (scheme u) netloc'
                    (if Py.truthy joined then joined else "/")
                    (params u) (query u) (fragment u))
    end
    end.

End urllib.

(** A host check for the examples, none of which has a bracketed host. *)
Definition no_bracketed_hosts : BracketedHost :=
  fun _ => Some "does not appear to be an IPv4 or IPv6 address".

(** ** Data model *)

(** Python values that travel in JSON bodies and request payloads.  Nested
    containers are values: the driver never mutates one, so only the identity
    of top-level dict objects is tracked (see [World]). *)
#[warnings="-register-all"]
Inductive pyval :=
| PNone
| PBool (b : bool)
| PInt (n : Z)
| PStr (s : string)
| PList (l : list pyval)
| PDict (d : list (string * pyval)).

(** The account key, opaque to the driver. *)
Definition Key := string.

Inductive method := GET | POST.

(** What [requests.get] / [requests.post] are called with. *)
Record Request := mkRequest {
  meth : method;
  target : string;
  data : option string;
  req_headers : gmap string string
}.

(** What they return: [headers !! name] is [response.headers.get(name)]. *)
Record Response := mkResponse {
  status_code : Z;
  headers : gmap string string;
  content : string
}.

(** [RegistrationResult] (fields [contents], [uri], [terms]),
    [NewAuthorizationResult] (fields [contents], [uri]) and [IssuanceResult];
    the field names carry a prefix where the source's name is taken. *)
Record RegistrationResult := mkRegistrationResult {
  reg_contents : pyval;
  reg_uri : option string;
  terms : option string
}.

Record NewAuthorizationResult := mkNewAuthorizationResult {
  authz_contents : pyval;
  authz_uri : option string
}.

(** The third field of an [IssuanceResult] holds whatever [chain] is bound
    to: a str taken from the [Link] header or the bytes of a response. *)
Inductive strbytes :=
| Str (s : string)
| Bytes (b : string).

Record IssuanceResult := mkIssuanceResult {
  certificate : string;
  location : option string;
  intermediate : option strbytes
}.

(** Modelled from the spec: the exception classes of [manuale/errors.py],
    which is not part of the sources at hand.  An [AcmeError] carries what it
    was constructed with (the failed response, a message, or the exception it
    wraps); an [AccountAlreadyExistsError] carries the response and the URI
    of the existing account. *)
Inductive acme_arg :=
| OfResponse (r : Response)
| OfMessage (s : string)
| OfException (e : pyexn).

(** What a driver call can raise: a built-in exception of a library call,
    an exception of [requests], or one of the two classes of [errors.py]. *)
Inductive exn :=
| Builtin (e : pyexn)
| RequestException
| AcmeError (a : acme_arg)
| AccountAlreadyExistsError (r : Response) (existing_uri : option string).

(** The collaborators of the driver that lie outside [acme.py]. *)
Class Externals := {
  (** [manuale.__version__] *)
  version : string;
  (** [crypto.generate_header(key)]: the contents of the dict it builds *)
  generate_header : Key -> gmap string pyval;
  (** [crypto.sign_request(key, header, protected_header, payload)] *)
  sign_request :
    Key -> gmap string pyval -> gmap string pyval -> gmap string pyval -> string;
  (** [response.json()] as a function of the body: [inl msg] when it raises
      [ValueError(msg)] *)
  json_loads : string -> string + pyval;
  (** the network: the answer to a request given the requests sent before
      it, or [None] when [requests] raises instead of returning *)
  respond : list Request -> Request -> option Response
}.

(** The [Account] object: [uri] is [None] until it is assigned. *)
Record Account := mkAccount {
  account_key : Key;
  uri : option string
}.

(** The mutable world a call runs in. *)
Record World := mkWorld {
  (** the [Account] shared between the caller and the driver *)
  account : Account;
  (** the dict objects alive, by identity *)
  dicts : gmap positive (gmap string pyval);
  (** the requests issued so far, oldest first *)
  sent : list Request
}.

(** The [Acme] object ([self.account] is the account of the world). *)
Record Acme := mkAcme {
  url : string;
  key : Key
}.

(** ** The monad of driver calls: the world is threaded through, and an
    exception keeps the mutations made before it. *)
Definition M (A : Type) : Type := World -> outcome exn A * World.

Definition ret {A} (a : A) : M A := fun w => (Return a, w).

Definition raise {A} (e : exn) : M A := fun w => (Raise e, w).

Definition bind {A B} (m : M A) (k : A -> M B) : M B :=
  fun w =>
    match m w with
    | (Return a, w') => k a w'
    | (Raise e, w') => (Raise e, w')
    end.

Notation "'let!' x ':=' m 'in' k" := (bind m (fun x => k))
  (at level 10, x pattern, m at level 100, k at level 200).

(** Lifting of a library call that may raise a built-in exception. *)
Definition lift {A} (o : outcome pyexn A) : M A :=
  match o with
  | Return a => ret a
  | Raise e => raise (Builtin e)
  end.

(** A new dict object with contents [d]. *)
Definition alloc (d : gmap string pyval) : M positive :=
  fun w =>
    let l := fresh (dom (dicts w)) in
    (Return l, mkWorld (account w) (<[l := d]> (dicts w)) (sent w)).

(** The contents of a dict object. *)
Definition read (l : positive) : M (gmap string pyval) :=
  fun w => (Return (default ∅ (dicts w !! l)), w).

(** [copy.deepcopy(d)] on the dict object [l]: a new object with the same
    contents.  The contents are values, which share nothing with the
    original. *)
Definition deepcopy (l : positive) : M positive :=
  fun w =>
    match read l w with
    | (Return d, w') => alloc d w'
    | (Raise e, w') => (Raise e, w')
    end.

(** [d[k] = v] on the dict object [l] *)
Definition setitem (l : positive) (k : string) (v : pyval) : M unit :=
  fun w =>
    (Return tt,
     mkWorld (account w) (alter (insert k v) l (dicts w)) (sent w)).

(** [self.account.uri = u] *)
Definition set_account_uri (u : option string) : M unit :=
  fun w =>
    (Return tt,
     mkWorld (mkAccount (account_key (account w)) u) (dicts w) (sent w)).

(** [self.account.uri] *)
Definition get_account_uri : M (option string) :=
  fun w => (Return (uri (account w)), w).

Section driver.
Context {bh : BracketedHost} {ext : Externals}.

(** [requests.get] / [requests.post]: the request is recorded, then
    answered. *)
Definition send (r : Request) : M Response :=
  fun w =>
    let w' := mkWorld (account w) (dicts w) (sent w ++ [r]) in
    match respond (sent w) r with
    | Some resp => (Return resp, w')
    | None => (Raise RequestException, w')
    end.

Definition DEFAULT_HEADERS : gmap string string :=
  {[ "User-Agent" :=
       "manuale " ++ version ++ " (https://github.com/veeti/manuale)" ]}.

(** [_json(response)] *)
Definition _json (response : Response) : M pyval :=
  match json_loads (content response) with
  | inr v => ret v
  | inl e => raise (AcmeError (OfMessage ("Invalid JSON response. " ++ e)))
  end.

(** [Acme.path]: [path] is [None] when the caller passes an unset
    [account.uri]. *)
Definition path (self : Acme) (path : option string) : M string :=
  match path with
  | None =>
      raise (Builtin (AttributeError
        "'NoneType' object has no attribute 'startswith'"))
  | Some path =>
      let! path :=
        (if Py.startswith path "http" then
           let! r := lift (urllib.urlparse path EmptyString) in
           ret (urllib.path r)
         else ret path) in
      lift (urllib.urljoin (url self) path)
  end.

(** [Acme.get] *)
Definition get (self : Acme) (p : option string)
    (headers : option (gmap string string)) : M Response :=
  let _headers := DEFAULT_HEADERS in
  let _headers :=
    match headers with
    | Some h => h ∪ _headers
    | None => _headers
    end in
  let! u := path self p in
  send (mkRequest GET u None _headers).

(** [Acme.post] *)
Definition post (self : Acme) (p : option string) (body : string)
    (headers : option (gmap string string)) : M Response :=
  let _headers := DEFAULT_HEADERS in
  let _headers := <[ "Content-Type" := "application/json" ]> _headers in
  let _headers :=
    match headers with
    | Some h => h ∪ _headers
    | None => _headers
    end in
  let! u := path self p in
  send (mkRequest POST u (Some body) _headers).

(** [Acme.get_nonce] *)
Definition get_nonce (self : Acme) : M (option string) :=
  let! r := get self (Some "/directory") None in
  ret (headers r !! "Replay-Nonce").

(** A str-or-None as a value held in a dict. *)
Definition of_optstr (o : option string) : pyval :=
  match o with
  | Some s => PStr s
  | None => PNone
  end.

(** [Acme.get_headers]: both dicts are returned by identity. *)
Definition get_headers (self : Acme) : M (positive * positive) :=
  let! header := alloc (generate_header (key self)) in
  let! protected_header := deepcopy header in
  let! nonce := get_nonce self in
  let! _ := setitem protected_header "nonce" (of_optstr nonce) in
  ret (header, protected_header).

(** [sign_request(self.key, header, protected_header, payload)] on dict
    objects *)
Definition sign (self : Acme) (header protected_header : positive)
    (payload : gmap string pyval) : M string :=
  let! h := read header in
  let! p := read protected_header in
  ret (sign_request (key self) h p payload).

(** [Acme.register] *)
Definition register (self : Acme) (email : string) : M RegistrationResult :=
  let! (header, protected_header) := get_headers self in
  let! request := sign self header protected_header
    {[ "resource" := PStr "new-reg";
       "contact" := PList [PStr ("mailto:" ++ email)] ]} in
  let! response := post self (Some "/acme/new-reg") request None in
  let uri := headers response !! "Location" in
  if status_code response =? 201 then
    let! _ := set_account_uri uri in
    let! terms :=
      lift (_get_link (headers response !! "Link") "terms-of-service") in
    let! contents := _json response in
    ret (mkRegistrationResult contents uri terms)
  else if status_code response =? 409 then
    raise (AccountAlreadyExistsError response uri)
  else raise (AcmeError (OfResponse response)).

(** [Acme.get_registration] *)
Definition get_registration (self : Acme) : M pyval :=
  let! (header, protected_header) := get_headers self in
  let! request := sign self header protected_header
    {[ "resource" := PStr "reg" ]} in
  let! account_uri := get_account_uri in
  let! response := post self account_uri request None in
  if Py.startswith (Py.str_int (status_code response)) "2" then
    _json response
  else raise (AcmeError (OfResponse response)).

(** [bool(params)] for a dict-or-None argument *)
Definition dict_truthy (d : gmap string pyval) : bool :=
  negb (bool_decide (d = ∅)).

(** [params or {}]: [params] is the identity of the caller's dict, or
    [None]; an empty dict is false, and [{}] is a new object. *)
Definition params_or_new (params : option positive) : M positive :=
  match params with
  | Some l =>
      let! d := read l in
      if dict_truthy d then ret l else alloc ∅
  | None => alloc ∅
  end.

(** [Acme.update_registration] *)
Definition update_registration (self : Acme) (params : option positive)
  : M bool :=
  let! params := params_or_new params in
  let! _ := setitem params "resource" (PStr "reg") in
  let! (header, protected_header) := get_headers self in
  let! payload := read params in
  let! request := sign self header protected_header payload in
  let! account_uri := get_account_uri in
  let! response := post self account_uri request None in
  if Py.startswith (Py.str_int (status_code response)) "2" then ret true
  else raise (AcmeError (OfResponse response)).

(** [Acme.new_authorization] *)
Definition new_authorization (self : Acme) (domain : string)
  : M NewAuthorizationResult :=
  let! (header, protected_header) := get_headers self in
  let! request := sign self header protected_header
    {[ "resource" := PStr "new-authz";
       "identifier" :=
         PDict [("type", PStr "dns"); ("value", PStr domain)] ]} in
  let! response := post self (Some "/acme/new-authz") request None in
  if status_code response =? 201 then
    let! contents := _json response in
    ret (mkNewAuthorizationResult contents (headers response !! "Location"))
  else raise (AcmeError (OfResponse response)).

(** [Acme.validate_authorization] *)
Definition validate_authorization (self : Acme) (uri : option string)
    (_type key_authorization : string) : M bool :=
  let! (header, protected_header) := get_headers self in
  let! request := sign self header protected_header
    {[ "resource" := PStr "challenge";
       "type" := PStr _type;
       "keyAuthorization" := PStr key_authorization ]} in
  let! response := post self uri request None in
  if Py.startswith (Py.str_int (status_code response)) "2" then ret true
  else raise (AcmeError (OfResponse response)).

(** [Acme.get_authorization] *)
Definition get_authorization (self : Acme) (uri : option string) : M pyval :=
  let! response := get self uri None in
  match json_loads (content response) with
  | inr v => ret v
  | inl e => raise (AcmeError (OfException (ValueError e)))
  end.

(** [Acme.issue_certificate] *)
Definition issue_certificate (self : Acme) (csr : string)
  : M IssuanceResult :=
  let! (header, protected) := get_headers self in
  let http_headers : gmap string string :=
    {[ "Accept" := "application/pkix-cert" ]} in
  let! request := sign self header protected
    {[ "resource" := PStr "new-cert"; "csr" := PStr csr ]} in
  let! response :=
    post self (Some "/acme/new-cert") request (Some http_headers) in
  if status_code response =? 201 then
    let! chain := lift (_get_link (headers response !! "Link") "up") in
    let! chain :=
      match chain with
      | Some c =>
          if Py.truthy c then
            let! r := send (mkRequest GET c None DEFAULT_HEADERS) in
            ret (Some (Bytes (content r)))
          else ret (Some (Str c))
      | None => ret None
      end in
    ret (mkIssuanceResult (content response)
           (headers response !! "Location") chain)
  else raise (AcmeError (OfResponse response)).

End driver.

(** ** A concrete certificate authority for the examples *)

(** The double quote, as a string. *)
Definition dq : string := String "034"%char EmptyString.

(** The externals of the examples: the CA answers the directory lookup with
    [directory], every POST with [answer] and every other GET with [other]. *)
Definition example_externals (directory answer other : Response) : Externals :=
  {| version := "1.1.0";
     generate_header := fun _ =>
       {[ "alg" := PStr "RS256"; "jwk" := PDict [("kty", PStr "RSA")] ]};
     sign_request := fun k _ p payload =>
       match p !! "nonce" with
       | Some (PStr n) => "signed:" ++ n
       | _ => "signed"
       end;
     json_loads := fun body =>
       if String.eqb body "{}" then inr (PDict [])
       else inl "Expecting value: line 1 column 1 (char 0)";
     respond := fun _ r =>
       match meth r with
       | POST => Some answer
       | GET =>
           if String.eqb (target r) "https://ca.example/directory"
           then Some directory else Some other
       end |}.

Definition directory_response : Response :=
  mkResponse 200 {[ "Replay-Nonce" := "n0" ]} "{}".

Definition example_acme : Acme := mkAcme "https://ca.example/" "key".

Definition world0 : World := mkWorld (mkAccount "key" None) ∅ [].

(** ** The signed exchange shared by the operations *)

Section exchange.
Context {bh : BracketedHost} {ext : Externals}.

(** Every signed operation starts the same way: build the two headers, sign
    the payload, post the signed body.  [exchange] names that prefix, so
    that a statement can speak of the response the operation classifies. *)
Definition exchange (self : Acme) (payload : gmap string pyval)
    (target : option string) (http_headers : option (gmap string string))
  : M Response :=
  let! (header, protected_header) := get_headers self in
  let! request := sign self header protected_header payload in
  post self target request http_headers.

(** The headers [Acme.get] and [Acme.post] send. *)
Definition get_request_headers (h : option (gmap string string))
  : gmap string string :=
  match h with Some h => h ∪ DEFAULT_HEADERS | None => DEFAULT_HEADERS end.

Definition post_request_headers (h : option (gmap string string))
  : gmap string string :=
  let d := <[ "Content-Type" := "application/json" ]> DEFAULT_HEADERS in
  match h with Some h => h ∪ d | None => d end.

(** The identities [get_headers] gives the unprotected header and its copy
    when it starts in [w]. *)
Definition header_loc (w : World) : positive := fresh (dom (dicts w)).

Definition protected_loc (self : Acme) (w : World) : positive :=
  fresh (dom (<[header_loc w := generate_header (key self)]> (dicts w))).

(** The dicts [get_headers] leaves when the directory answers with [nonce]:
    the new header dict and its copy with the nonce. *)
Definition with_headers (self : Acme) (nonce : pyval) (w : World)
  : gmap positive (gmap string pyval) :=
  <[protected_loc self w := <["nonce" := nonce]> (generate_header (key self))]>
    (<[header_loc w := generate_header (key self)]> (dicts w)).

(** The request [get_nonce] makes, [u] being the resolved directory URL. *)
Definition directory_request (u : string) : Request :=
  mkRequest GET u None DEFAULT_HEADERS.

(** The body a signed exchange posts when the directory answered [r0]. *)
Definition signed_body (self : Acme) (r0 : Response)
    (payload : gmap string pyval) : string :=
  sign_request (key self) (generate_header (key self))
    (<["nonce" := of_optstr (headers r0 !! "Replay-Nonce")]>
       (generate_header (key self)))
    payload.

(** The first two statements of [update_registration]: [params or {}],
    then the assignment of the resource.  The dict object the rest of the
    call works on is returned. *)
Definition update_registration_params (params : option positive)
  : M positive :=
  let! params := params_or_new params in
  let! _ := setitem params "resource" (PStr "reg") in
  ret params.

(** The status test of the lenient operations. *)
Definition starts_with_2 (r : Response) : bool :=
  Py.startswith (Py.str_int (status_code r)) "2".

(** The request [issue_certificate] makes for the issuer certificate. *)
Definition issuer_request (chain : string) : Request :=
  mkRequest GET chain None DEFAULT_HEADERS.

Definition pkix_headers : gmap string string :=
  {[ "Accept" := "application/pkix-cert" ]}.

Definition registration_payload : gmap string pyval :=
  {[ "resource" := PStr "reg" ]}.

Definition register_payload (email : string) : gmap string pyval :=
  {[ "resource" := PStr "new-reg";
     "contact" := PList [PStr ("mailto:" ++ email)] ]}.

Definition new_authorization_payload (domain : string) : gmap string pyval :=
  {[ "resource" := PStr "new-authz";
     "identifier" := PDict [("type", PStr "dns"); ("value", PStr domain)] ]}.

Definition validate_payload (_type key_authorization : string)
  : gmap string pyval :=
  {[ "resource" := PStr "challenge";
     "type" := PStr _type;
     "keyAuthorization" := PStr key_authorization ]}.

Definition new_cert_payload (csr : string) : gmap string pyval :=
  {[ "resource" := PStr "new-cert"; "csr" := PStr csr ]}.

End exchange.

(** Responses of the example CA. *)
Definition account_url : string := "https://ca.example/acme/reg/7".

Definition created_not_json : Response :=
  mkResponse 201 {[ "Location" := account_url ]} "<html>busy</html>".

Definition created_json : Response :=
  mkResponse 201
    {[ "Location" := account_url;
       "Link" := "<https://ca.example/terms>;rel=" ++ dq ++ "terms-of-service" ++ dq ]}
    "{}".

Definition conflict : Response :=
  mkResponse 409 {[ "Location" := account_url ]} "{}".

Definition ca_created_not_json : Externals :=
  example_externals directory_response created_not_json directory_response.

Definition ca_created_json : Externals :=
  example_externals directory_response created_json directory_response.

Definition ca_conflict : Externals :=
  example_externals directory_response conflict directory_response.

Definition json_error : string := "Expecting value: line 1 column 1 (char 0)".

(** ** Vocabulary for the Link header statements *)

(** The entries of a [Link] header as the parser sees them: the
    comma-separated pieces, each stripped of surrounding whitespace. *)
Definition link_entries (header : option string) : list string :=
  map Py.strip (Py.split "," (default EmptyString header)).

(** The first entry whose text contains the relation type. *)
Definition first_matching (header : option string) (type : string)
  : option string :=
  List.find (Py.contains type) (link_entries header).

(** The text between the first ['<'] of an entry and the ['>'] that follows
    it, as the specification words the extraction; [None] when the entry has
    no such pair. *)
Definition between_angle (entry : string) : option string :=
  match Py.find "<" entry with
  | Some i =>
      let rest := Py.drop (S i) entry in
      match Py.find ">" rest with
      | Some j => Some (Py.take j rest)
      | None => None
      end
  | None => None
  end.

(** What the specification's wording of the parser gives. *)
Definition get_link_as_specified (header : option string) (type : string)
  : option string :=
  match first_matching header type with
  | Some entry => between_angle entry
  | None => None
  end.

Definition two_links : string :=
  "<https://ca.example/acct/1>;rel=" ++ dq ++ "terms-of-service" ++ dq
  ++ ", <https://ca.example/issuer>;rel=" ++ dq ++ "up" ++ dq.

(** One entry of the form [<url>;rel="up"] whose URL holds a comma. *)
Definition comma_link : string :=
  "<https://ca.example/issuer,v2>;rel=" ++ dq ++ "up" ++ dq.

(** An account that is registered already, and a caller's dict at
    identity 1. *)
Definition registered : Account := mkAccount "key" (Some account_url).

Definition world_with_params (d : gmap string pyval) : World :=
  mkWorld registered {[ 1%positive := d ]} [].

Definition agreement_params : gmap string pyval :=
  {[ "agreement" := PStr "https://ca.example/terms" ]}.

Definition accepted : Response := mkResponse 202 ∅ "{}".

Definition ca_accepted : Externals :=
  example_externals directory_response accepted directory_response.

Definition world_registered : World := mkWorld registered ∅ [].

Definition no_content : Response := mkResponse 204 ∅ EmptyString.

Definition ca_no_content : Externals :=
  example_externals directory_response no_content directory_response.



(** ** Vocabulary for the path statements *)

(** A string that begins with exactly one slash. *)
Definition single_slash (s : string) : Prop :=
  ∃ s', s = String "/" s' ∧ Py.take 1 s' ≠ "/".

(** A string that begins with a slash. *)
Definition rooted (s : string) : Prop := ∃ s', s = String "/" s'.

(** A string without the characters [urlsplit] removes. *)
Definition clean (s : string) : Prop :=
  Py.has_char "009" s = false ∧ Py.has_char "013" s = false
  ∧ Py.has_char "010" s = false.

(** [s] begins with [pre]. *)
Definition extends (pre s : string) : Prop := ∃ rest, s = pre ++ rest.

(** Scheme, [://], authority and the slash that opens the path. *)
Definition origin (b : urllib.ParseResult) : string :=
  urllib.scheme b ++ "://" ++ urllib.netloc b ++ "/".

(** The outcome of a library call as the outcome of the driver call that
    makes it. *)
Definition builtin {A} (o : outcome pyexn A) : outcome exn A :=
  match o with
  | Return a => Return a
  | Raise e => Raise (Builtin e)
  end.

(** ** Vocabulary and examples for issuance *)

(** An entry advertises a relation when it carries the parameter
    [rel="type"]; a header has a relation when one of its entries does. *)
Definition advertises (type entry : string) : bool :=
  Py.contains ("rel=" ++ dq ++ type ++ dq) entry.

Definition has_relation (header : option string) (type : string) : bool :=
  existsb (advertises type) (link_entries header).

Definition certificate_url : string := "https://ca.example/acme/cert/9".

Definition issued_with_support : Response :=
  mkResponse 201
    {[ "Location" := certificate_url;
       "Link" := "<https://ca.example/support>;rel=" ++ dq ++ "terms-of-service" ++ dq ]}
    "DER".

Definition issued_with_issuer : Response :=
  mkResponse 201
    {[ "Location" := certificate_url;
       "Link" := "<https://ca.example/issuer>;rel=" ++ dq ++ "up" ++ dq ]}
    "DER".

Definition issued_off_host : Response :=
  mkResponse 201
    {[ "Location" := certificate_url;
       "Link" := "<https://attacker.example/issuer>;rel=" ++ dq ++ "up" ++ dq ]}
    "DER".

Definition issuer_certificate : Response := mkResponse 200 ∅ "ISSUER".

Definition ca_with_support : Externals :=
  example_externals directory_response issued_with_support issuer_certificate.

Definition ca_with_issuer : Externals :=
  example_externals directory_response issued_with_issuer issuer_certificate.

Definition ca_off_host : Externals :=
  example_externals directory_response issued_off_host issuer_certificate.

(** ** Further examples *)

(** A network that never answers. *)
Definition silent_externals : Externals :=
  {| version := "1.1.0";
     generate_header := fun _ => {[ "alg" := PStr "RS256" ]};
     sign_request := fun _ _ _ _ => "signed";
     json_loads := fun _ => inl json_error;
     respond := fun _ _ => None |}.

Definition created_bad_link : Response :=
  mkResponse 201
    {[ "Location" := account_url; "Link" := "terms-of-service" ]} "{}".

Definition ca_created_bad_link : Externals :=
  example_externals directory_response created_bad_link directory_response.

Definition created_bad_link_not_json : Response :=
  mkResponse 201
    {[ "Location" := account_url; "Link" := "terms-of-service" ]}
    "<html>busy</html>".

Definition ca_created_bad_link_not_json : Externals :=
  example_externals directory_response created_bad_link_not_json
    directory_response.

(** A challenge URL as a CA may supply it, on a host that is not the
    base's. *)
Definition challenge_url : string := "https://attacker.example/acme/challenge/5".

Definition issued_empty_up : Response :=
  mkResponse 201
    {[ "Location" := certificate_url;
       "Link" := "<>;rel=" ++ dq ++ "up" ++ dq ]}
    "DER".

Definition ca_empty_up : Externals :=
  example_externals directory_response issued_empty_up issuer_certificate.

Definition not_found_json : Response := mkResponse 404 ∅ "{}".

Definition ca_not_found : Externals :=
  example_externals directory_response accepted not_found_json.

(** What [path] raises on [None]. *)
Definition no_startswith : exn :=
  Builtin (AttributeError "'NoneType' object has no attribute 'startswith'").

Definition two_thousand : Response := mkResponse 2000 ∅ "{}".

Definition ca_two_thousand : Externals :=
  example_externals directory_response two_thousand directory_response.

Definition issued_bad_link : Response :=
  mkResponse 201 {[ "Location" := certificate_url; "Link" := "up" ]} "DER".

Definition ca_issued_bad_link : Externals :=
  example_externals directory_response issued_bad_link issuer_certificate.

(** A host name as it may follow the two slashes: not empty, and without the
    characters that end or bracket a netloc. *)
Definition plain_host (h : string) : Prop :=
  h ≠ EmptyString ∧ clean h ∧
  Py.has_char "/" h = false ∧ Py.has_char "?" h = false ∧
  Py.has_char "#" h = false ∧ Py.has_char "[" h = false ∧
  Py.has_char "]" h = false.

(** * Properties *)

(** ** The models of the built-ins on examples

    The expected values are those of CPython. *)

Example strip_example :
  Py.strip ("  a b" ++ String "009" " ") = "a b".
Proof. reflexivity. Qed.

Example split_example : Py.split "," "a,,b," = ["a"; EmptyString; "b"; EmptyString].
Proof. reflexivity. Qed.

Example split_empty_example : Py.split "," EmptyString = [EmptyString].
Proof. reflexivity. Qed.

Example contains_example :
  Py.contains "up" "<https://ca.example/support>" = true ∧
  Py.contains "up" "<https://ca.example/acct/1>" = false ∧
  Py.contains EmptyString EmptyString = true.
Proof. repeat split; reflexivity. Qed.

Example slice_example : Py.slice 1 4 "<abc>" = "abc" ∧ Py.slice 1 0 ">x" = EmptyString.
Proof. split; reflexivity. Qed.

Example str_int_example :
  Py.str_int 201 = "201" ∧ Py.str_int 0 = "0" ∧ Py.str_int (-1) = "-1".
Proof. repeat split; reflexivity. Qed.

(** An entry that contains the relation type but no ['>'] makes the parser
    raise. *)
Example get_link_without_bracket :
  _get_link (Some "up") "up" = Raise (ValueError "substring not found").
Proof. reflexivity. Qed.

Example urljoin_examples :
  let join := urllib.urljoin (bh := no_bracketed_hosts) in
  join "http://a/b/c/d;p?q" "../g" = Return "http://a/b/g" ∧
  join "http://a/b/c/d;p?q" "g;x?y#s" = Return "http://a/b/c/g;x?y#s" ∧
  join "http://a/b/c/d;p?q" "//g" = Return "http://g" ∧
  join "https://ca.example/" "/directory" = Return "https://ca.example/directory" ∧
  join "https://ca.example/" "//evil.example/x" = Return "https://evil.example/x" ∧
  join "https://ca.example/" "//[/x" = Raise (ValueError "Invalid IPv6 URL").
Proof. repeat split; reflexivity. Qed.

Example urlparse_example :
  urllib.urlparse (bh := no_bracketed_hosts) "https://u@h:8/p/q;r?s#t" EmptyString
  = Return (urllib.mkParseResult "https" "u@h:8" "/p/q" "r" "s" "t").
Proof. reflexivity. Qed.

(** ** Strings *)

Section string_facts.

Lemma append_assoc_s (a b c : string) : (a ++ b) ++ c = a ++ (b ++ c).
Proof.
  induction a as [|x a IH]; [reflexivity|].
  change (String x ((a ++ b) ++ c) = String x (a ++ (b ++ c))).
  f_equal. exact IH.
Qed.

Lemma extends_app pre s t : extends pre s → extends pre (s ++ t).
Proof.
  intros [rest ->]. exists (rest ++ t). apply append_assoc_s.
Qed.

Lemma rooted_truthy s : rooted s → Py.truthy s = true.
Proof. intros [s' ->]. reflexivity. Qed.

Lemma single_slash_rooted s : single_slash s → rooted s.
Proof. intros (s' & -> & _). exists s'. reflexivity. Qed.

Lemma has_char_take c n s :
  Py.has_char c s = false → Py.has_char c (Py.take n s) = false.
Proof.
  revert n. induction s as [|a s IH]; intros [|n]; cbn; try reflexivity.
  intros Hc. apply orb_false_elim in Hc as [-> Hs]. cbn. apply IH, Hs.
Qed.

Lemma has_char_drop c n s :
  Py.has_char c s = false → Py.has_char c (Py.drop n s) = false.
Proof.
  revert n. induction s as [|a s IH]; intros [|n]; cbn; try reflexivity.
  - intros Hc; exact Hc.
  - intros Hc. apply orb_false_elim in Hc as [_ Hs]. apply IH, Hs.
Qed.

Lemma has_char_remove c s : Py.has_char c (Py.remove_char c s) = false.
Proof.
  induction s as [|a s IH]; cbn; [reflexivity|].
  destruct (Ascii.eqb a c) eqn:Hac; [exact IH|]. cbn. rewrite Hac, IH.
  reflexivity.
Qed.

Lemma has_char_remove_other c d s :
  Py.has_char c s = false → Py.has_char c (Py.remove_char d s) = false.
Proof.
  induction s as [|a s IH]; cbn; [reflexivity|].
  intros Hc. apply orb_false_elim in Hc as [Ha Hs].
  destruct (Ascii.eqb a d); [apply IH, Hs|]. cbn. rewrite Ha. apply IH, Hs.
Qed.

Lemma remove_char_id c s : Py.has_char c s = false → Py.remove_char c s = s.
Proof.
  induction s as [|a s IH]; cbn; [reflexivity|].
  intros Hc. apply orb_false_elim in Hc as [-> Hs]. rewrite IH by exact Hs.
  reflexivity.
Qed.

Lemma clean_take n s : clean s → clean (Py.take n s).
Proof. intros (H1 & H2 & H3). repeat split; apply has_char_take; assumption. Qed.

Lemma clean_drop n s : clean s → clean (Py.drop n s).
Proof. intros (H1 & H2 & H3). repeat split; apply has_char_drop; assumption. Qed.

Lemma clean_remove_unsafe s : clean (urllib.remove_unsafe s).
Proof.
  unfold urllib.remove_unsafe. repeat split.
  - do 2 apply has_char_remove_other. apply has_char_remove.
  - apply has_char_remove_other, has_char_remove.
  - apply has_char_remove.
Qed.

Lemma remove_unsafe_clean s : clean s → urllib.remove_unsafe s = s.
Proof.
  intros (H1 & H2 & H3). unfold urllib.remove_unsafe.
  rewrite (remove_char_id "009" s H1), (remove_char_id "013" s H2).
  apply remove_char_id, H3.
Qed.

Lemma clean_split1 c s : clean s → clean (fst (Py.split1 c s)).
Proof.
  intros Hs. unfold Py.split1. destruct (Py.find c s); cbn [fst];
    [apply clean_take|]; exact Hs.
Qed.

(** A character found at position 0 is the first character. *)
Lemma find_zero c a s : Py.find c (String a s) = Some 0%nat → a = c.
Proof.
  cbn. destruct (Ascii.eqb_spec a c) as [->|_]; [reflexivity|].
  destruct (Py.find c s); discriminate.
Qed.

Lemma rooted_take n s : rooted s → rooted (Py.take (S n) s).
Proof. intros [s' ->]. exists (Py.take n s'). reflexivity. Qed.

Lemma rooted_split1 c s :
  c ≠ "/"%char → rooted s → rooted (fst (Py.split1 c s)).
Proof.
  intros Hc [s' ->]. unfold Py.split1.
  destruct (Py.find c (String "/" s')) as [[|i]|] eqn:Hf; cbn [fst].
  - apply find_zero in Hf. congruence.
  - apply rooted_take. exists s'. reflexivity.
  - exists s'. reflexivity.
Qed.

End string_facts.

(** ** Parsing and joining URLs *)

Section urllib_facts.
Context {bh : BracketedHost}.

(** The default scheme [urljoin] passes on is not changed by the
    sanitising of [urlsplit]. *)
Lemma scheme_argument_clean sch :
  sch = "https" ∨ sch = "http" →
  urllib.remove_unsafe
    (Py.rstrip_by urllib.c0_or_space (Py.lstrip_by urllib.c0_or_space sch))
  = sch.
Proof. intros [->| ->]; reflexivity. Qed.

(** A path with a single leading slash is not taken for a netloc. *)
Lemma take2_single_slash q : single_slash q → String.eqb (Py.take 2 q) "//" = false.
Proof.
  intros (q' & -> & Hq). apply String.eqb_neq. intros Heq.
  apply Hq. destruct q' as [|c q']; [discriminate|].
  cbn in Heq |- *. congruence.
Qed.

(** [urlsplit] on such a path: no scheme, no netloc, and the path still
    begins with the slash. *)
Lemma urlsplit_single_slash q sch :
  single_slash q → clean q → sch = "https" ∨ sch = "http" →
  ∃ url query fragment,
    urllib.urlsplit q sch = Return (sch, EmptyString, url, query, fragment) ∧
    rooted url.
Proof.
  intros Hq Hc Hs. pose proof (take2_single_slash q Hq) as H2.
  pose proof (single_slash_rooted q Hq) as Hr.
  destruct Hq as (q' & -> & Hq).
  unfold urllib.urlsplit.
  change (Py.lstrip_by urllib.c0_or_space (String "/" q')) with (String "/" q').
  rewrite (scheme_argument_clean sch Hs), (remove_unsafe_clean _ Hc).
  assert ((match Py.find ":" (String "/" q'), String "/" q' with
      | Some (S i' as i), String c0 _ =>
          if urllib.ascii_alpha c0 then
            if Py.all_chars (fun c => Py.has_char c urllib.scheme_chars) (Py.take i (String "/" q'))
            then (Py.lower (Py.take i (String "/" q')), Py.drop (S i) (String "/" q'))
            else (sch, String "/" q')
          else (sch, String "/" q')
      | _, _ => (sch, String "/" q') end) = (sch, String "/" q')) as ->.
  { destruct (Py.find ":" (String "/" q')) as [[|i]|]; reflexivity. }
  rewrite H2.
  destruct (Py.has_char "#" (String "/" q')) eqn:Hf.
  - pose proof (rooted_split1 "#" _ ltac:(discriminate) Hr) as Hr1.
    destruct (Py.split1 "#" (String "/" q')) as [url1 frag]. cbn [fst] in Hr1.
    destruct (Py.has_char "?" url1).
    + pose proof (rooted_split1 "?" _ ltac:(discriminate) Hr1) as Hr2.
      destruct (Py.split1 "?" url1) as [url2 query]. eauto.
    + eauto.
  - destruct (Py.has_char "?" (String "/" q')).
    + pose proof (rooted_split1 "?" _ ltac:(discriminate) Hr) as Hr2.
      destruct (Py.split1 "?" (String "/" q')) as [url2 query]. eauto.
    + eauto.
Qed.

(** Cutting the parameters off keeps the leading slash. *)
Lemma rooted_splitparams url : rooted url → rooted (fst (urllib._splitparams url)).
Proof.
  intros [s' ->]. unfold urllib._splitparams.
  change (Py.has_char "/" (String "/" s')) with true. cbv iota.
  unfold Py.find_from.
  destruct (default 0%nat (Py.rfind "/" (String "/" s'))) as [|k] eqn:Hk.
  - change (Py.drop 0 (String "/" s')) with (String "/" s').
    destruct (Py.find ";" (String "/" s')) as [[|j]|] eqn:Hf; cbn [fmap option_fmap option_map fst Nat.add].
    + apply find_zero in Hf. discriminate.
    + apply rooted_take. exists s'; reflexivity.
    + exists s'; reflexivity.
  - destruct (Py.find ";" (Py.drop (S k) (String "/" s'))) as [j|];
      cbn [fmap option_fmap option_map fst Nat.add].
    + apply rooted_take. exists s'; reflexivity.
    + exists s'; reflexivity.
Qed.

Lemma urlparse_single_slash q sch :
  single_slash q → clean q → sch = "https" ∨ sch = "http" →
  ∃ u, urllib.urlparse q sch = Return u ∧ urllib.scheme u = sch ∧
       urllib.netloc u = EmptyString ∧ rooted (urllib.path u).
Proof.
  intros Hq Hc Hs.
  destruct (urlsplit_single_slash q sch Hq Hc Hs) as (url & query & frag & Hsp & Hr).
  unfold urllib.urlparse. rewrite Hsp.
  destruct (urllib.mem sch urllib.uses_params && Py.has_char ";" url).
  - pose proof (rooted_splitparams url Hr) as Hr'.
    destruct (urllib._splitparams url) as [url' params]. eexists. repeat split. exact Hr'.
  - eexists. repeat split. exact Hr.
Qed.

(** A URL put together from a scheme, a netloc and a non-empty path begins
    with scheme, [://], netloc and a slash. *)
Lemma urlunparse_origin sch netloc url params query fragment :
  Py.truthy sch = true → Py.truthy netloc = true → Py.truthy url = true →
  extends (sch ++ "://" ++ netloc ++ "/")
    (urllib.urlunparse sch netloc url params query fragment).
Proof.
  intros Hs Hn Hu. unfold urllib.urlunparse, urllib.urlunsplit.
  rewrite Hn, Hs. cbv iota. cbn [orb].
  set (url0 := if Py.truthy params then url ++ ";" ++ params else url).
  assert (Py.truthy url0 = true) as H0.
  { subst url0. destruct (Py.truthy params); [|exact Hu].
    destruct url; [discriminate|reflexivity]. }
  assert (extends (sch ++ "://" ++ netloc ++ "/")
            (sch ++ ":" ++ "//" ++ netloc ++
               (if Py.truthy url0 && negb (String.eqb (Py.take 1 url0) "/")
                then "/" ++ url0 else url0))) as Hbase.
  { rewrite H0. cbn [andb]. destruct (String.eqb_spec (Py.take 1 url0) "/") as [He|He]; cbn [negb].
    - destruct url0 as [|c url0]; [discriminate|]. cbn in He.
      assert (c = "/"%char) as -> by (destruct url0; cbn in He; congruence).
      exists url0. rewrite !append_assoc_s. reflexivity.
    - exists url0. rewrite !append_assoc_s. reflexivity. }
  destruct (Py.truthy query), (Py.truthy fragment);
    [apply extends_app, extends_app|apply extends_app|apply extends_app|];
    exact Hbase.
Qed.

(** Joining a path that begins with exactly one slash against an http(s)
    base stays on the origin of the base. *)
Lemma urljoin_origin base b q :
  urllib.urlparse base EmptyString = Return b →
  urllib.scheme b = "https" ∨ urllib.scheme b = "http" →
  Py.truthy (urllib.netloc b) = true →
  single_slash q → clean q →
  ∃ r, urllib.urljoin base q = Return r ∧ extends (origin b) r.
Proof.
  intros Hb Hs Hn Hq Hc.
  destruct (urlparse_single_slash q (urllib.scheme b) Hq Hc Hs)
    as (u & Hu & Hsu & Hnu & Hpu).
  assert (Py.truthy (urllib.scheme b) = true) as Hst
    by (destruct Hs as [-> | ->]; reflexivity).
  unfold urllib.urljoin.
  assert (Py.truthy base = true) as ->.
  { destruct base; [|reflexivity]. cbv in Hb. inversion Hb; subst b.
    destruct Hs; discriminate. }
  rewrite (rooted_truthy q (single_slash_rooted q Hq)). cbn [negb].
  rewrite Hb, Hu, Hsu, Hnu, String.eqb_refl.
  assert (urllib.mem (urllib.scheme b) urllib.uses_relative = true) as ->
    by (destruct Hs as [-> | ->]; reflexivity).
  assert (urllib.mem (urllib.scheme b) urllib.uses_netloc = true) as ->
    by (destruct Hs as [-> | ->]; reflexivity).
  cbn [negb orb andb Py.truthy].
  rewrite (rooted_truthy _ Hpu). cbn [negb andb].
  eexists. split; [reflexivity|].
  apply urlunparse_origin; try assumption.
  destruct (Py.truthy (Py.join "/" _)) eqn:Hj; [exact Hj|reflexivity].
Qed.

Lemma split_rest_clean (sch netloc url : string) s n u q f :
  clean url →
  (let '(url, fragment) :=
     if Py.has_char "#" url then Py.split1 "#" url else (url, EmptyString) in
   let '(url, query) :=
     if Py.has_char "?" url then Py.split1 "?" url else (url, EmptyString) in
   Return (E:=pyexn) (sch, netloc, url, query, fragment))
  = Return (s, n, u, q, f) →
  clean u.
Proof.
  intros Hc.
  assert (clean (fst (if Py.has_char "#" url then Py.split1 "#" url
                      else (url, EmptyString)))) as H1.
  { destruct (Py.has_char "#" url); [apply clean_split1|]; exact Hc. }
  destruct (if Py.has_char "#" url then Py.split1 "#" url else (url, EmptyString))
    as [url1 frag]. cbn [fst] in H1.
  assert (clean (fst (if Py.has_char "?" url1 then Py.split1 "?" url1
                      else (url1, EmptyString)))) as H2.
  { destruct (Py.has_char "?" url1); [apply clean_split1|]; exact H1. }
  destruct (if Py.has_char "?" url1 then Py.split1 "?" url1 else (url1, EmptyString))
    as [url2 query]. cbn [fst] in H2.
  intros Heq. inversion Heq; subst. exact H2.
Qed.

(** What [urlsplit] returns as the path holds none of the characters it
    removed from the input. *)
Lemma urlsplit_clean url sch s n u q f :
  urllib.urlsplit url sch = Return (s, n, u, q, f) → clean u.
Proof.
  unfold urllib.urlsplit.
  set (url2 := urllib.remove_unsafe (Py.lstrip_by urllib.c0_or_space url)).
  set (sch2 := urllib.remove_unsafe _).
  assert (clean url2) as Hc2 by apply clean_remove_unsafe.
  destruct (match Py.find ":" url2, url2 with
            | Some (S i' as i), String c0 _ => _
            | _, _ => _ end) as [scheme3 url3] eqn:Hm.
  assert (clean url3) as Hc3.
  { change url3 with (snd (scheme3, url3)). rewrite <- Hm. clear Hm.
    destruct (Py.find ":" url2) as [[|i]|], url2 as [|c0 t];
      cbn [snd]; try exact Hc2.
    destruct (urllib.ascii_alpha c0);
      [destruct (Py.all_chars _ _)|]; cbn [snd]; try exact Hc2.
    apply clean_drop, Hc2. }
  destruct (String.eqb (Py.take 2 url3) "//").
  - unfold urllib._splitnetloc.
    set (delim := fold_left _ _ _).
    assert (clean (Py.drop delim url3)) as Hc4 by apply clean_drop, Hc3.
    destruct (_ && _ || _); [discriminate|].
    destruct (_ && _).
    + destruct (urllib._check_bracketed_netloc _); [|discriminate].
      apply split_rest_clean, Hc4.
    + apply split_rest_clean, Hc4.
  - apply split_rest_clean, Hc3.
Qed.

Lemma clean_splitparams url : clean url → clean (fst (urllib._splitparams url)).
Proof.
  intros Hc. unfold urllib._splitparams.
  destruct (Py.has_char "/" url).
  - destruct (Py.find_from _ _ _); cbn [fst]; [apply clean_take|]; exact Hc.
  - destruct (Py.find _ _); cbn [fst]; apply clean_take, Hc.
Qed.

Lemma urlparse_clean url sch r :
  urllib.urlparse url sch = Return r → clean (urllib.path r).
Proof.
  unfold urllib.urlparse.
  destruct (urllib.urlsplit url sch) as [[[[[s n] u] q] f]|e] eqn:Hs;
    [|discriminate].
  apply urlsplit_clean in Hs.
  destruct (_ && _).
  - pose proof (clean_splitparams u Hs) as Hp.
    destruct (urllib._splitparams u) as [u' params].
    intros Heq; inversion Heq; subst. exact Hp.
  - intros Heq; inversion Heq; subst. exact Hs.
Qed.

End urllib_facts.

(** ** Worlds *)

Section world_facts.
Context {bh : BracketedHost} {ext : Externals}.

(** A lifted library call leaves the world alone. *)
Lemma lift_run {A} (o : outcome pyexn A) w :
  lift o w = (match o with Return a => Return a | Raise e => Raise (Builtin e) end, w).
Proof. destruct o; reflexivity. Qed.

(** [Acme.path] neither reads nor writes the world. *)
Lemma path_world self p w : snd (path self p w) = w.
Proof.
  destruct p as [p|]; [|reflexivity].
  unfold path, bind. destruct (Py.startswith p "http").
  - rewrite lift_run. destruct (urllib.urlparse p EmptyString); simpl;
      [rewrite lift_run|]; reflexivity.
  - simpl. rewrite lift_run. reflexivity.
Qed.

(** So its run is its outcome, paired with the world it started in. *)
Lemma path_run self p w : path self p w = (fst (path self p w), w).
Proof. rewrite <- (path_world self p w) at 3. apply surjective_pairing. Qed.

(** The outcome of [Acme.path] does not depend on the world. *)
Lemma path_indep self p w w' : fst (path self p w) = fst (path self p w').
Proof.
  destruct p as [p|]; [|reflexivity].
  unfold path, bind. destruct (Py.startswith p "http").
  - rewrite !lift_run. destruct (urllib.urlparse p EmptyString); simpl;
      [rewrite !lift_run|]; reflexivity.
  - simpl. rewrite !lift_run. reflexivity.
Qed.

(** [Acme.get] and [Acme.post] resolve the path, then send one request. *)
Lemma get_run self p hd w :
  get self p hd w =
  match fst (path self p w) with
  | Return u => send (mkRequest GET u None (get_request_headers hd)) w
  | Raise e => (Raise e, w)
  end.
Proof.
  unfold get, bind. rewrite (path_run self p w).
  destruct (fst (path self p w)); destruct hd; reflexivity.
Qed.

Lemma post_run self p body hd w :
  post self p body hd w =
  match fst (path self p w) with
  | Return u => send (mkRequest POST u (Some body) (post_request_headers hd)) w
  | Raise e => (Raise e, w)
  end.
Proof.
  unfold post, bind. rewrite (path_run self p w).
  destruct (fst (path self p w)); destruct hd; reflexivity.
Qed.

(** Sending records the request, answered or not. *)
Lemma send_run r w :
  send r w =
  (match respond (sent w) r with
   | Some resp => Return resp
   | None => Raise RequestException
   end, mkWorld (account w) (dicts w) (sent w ++ [r])).
Proof. unfold send. destruct (respond (sent w) r); reflexivity. Qed.

(** [get_nonce]: one GET, to the resolved directory URL. *)
Lemma get_nonce_run self w :
  get_nonce self w =
  match fst (path self (Some "/directory") w) with
  | Return u =>
      (match respond (sent w) (directory_request u) with
       | Some r => Return (headers r !! "Replay-Nonce")
       | None => Raise RequestException
       end,
       mkWorld (account w) (dicts w) (sent w ++ [directory_request u]))
  | Raise e => (Raise e, w)
  end.
Proof.
  unfold get_nonce, bind. rewrite get_run.
  destruct (fst (path self (Some "/directory") w)); [|reflexivity].
  rewrite send_run. unfold directory_request, get_request_headers.
  destruct (respond _ _); reflexivity.
Qed.

(** The two header dicts are new objects, and distinct ones. *)
Lemma header_loc_fresh w : dicts w !! header_loc w = None.
Proof. unfold header_loc. apply (not_elem_of_dom (D:=gset positive)), is_fresh. Qed.

Lemma protected_loc_fresh self w :
  <[header_loc w := generate_header (key self)]> (dicts w)
    !! protected_loc self w = None.
Proof. unfold protected_loc. apply (not_elem_of_dom (D:=gset positive)), is_fresh. Qed.

Lemma protected_loc_ne self w : header_loc w ≠ protected_loc self w.
Proof.
  intros Heq. pose proof (protected_loc_fresh self w) as Hf.
  rewrite <- Heq, lookup_insert_eq in Hf. discriminate.
Qed.

(** [get_headers], step by step. *)
Lemma get_headers_run self w :
  get_headers self w =
  match fst (path self (Some "/directory") w) with
  | Return u =>
      match respond (sent w) (directory_request u) with
      | Some r =>
          (Return (header_loc w, protected_loc self w),
           mkWorld (account w)
             (with_headers self (of_optstr (headers r !! "Replay-Nonce")) w)
             (sent w ++ [directory_request u]))
      | None =>
          (Raise RequestException,
           mkWorld (account w)
             (<[protected_loc self w := generate_header (key self)]>
                (<[header_loc w := generate_header (key self)]> (dicts w)))
             (sent w ++ [directory_request u]))
      end
  | Raise e =>
      (Raise e,
       mkWorld (account w)
         (<[protected_loc self w := generate_header (key self)]>
            (<[header_loc w := generate_header (key self)]> (dicts w)))
         (sent w))
  end.
Proof.
  unfold get_headers, bind, deepcopy, alloc, read, setitem;
    cbn [dicts account sent].
  fold (header_loc w). rewrite lookup_insert_eq; cbn [default from_option id].
  fold (protected_loc self w).
  rewrite get_nonce_run; cbn [dicts account sent].
  rewrite (path_indep self (Some "/directory") _ w).
  destruct (fst (path self (Some "/directory") w)) as [u|e]; [|reflexivity].
  destruct (respond (sent w) (directory_request u)) as [r|]; [|reflexivity].
  unfold with_headers, ret; cbn [dicts account sent id].
  rewrite alter_insert_eq. reflexivity.
Qed.

(** What the two new objects hold. *)
Lemma with_headers_header self nonce w :
  with_headers self nonce w !! header_loc w = Some (generate_header (key self)).
Proof.
  unfold with_headers.
  rewrite lookup_insert_ne by (apply not_eq_sym, protected_loc_ne).
  apply lookup_insert_eq.
Qed.

Lemma with_headers_protected self nonce w :
  with_headers self nonce w !! protected_loc self w
  = Some (<["nonce" := nonce]> (generate_header (key self))).
Proof. unfold with_headers. apply lookup_insert_eq. Qed.

(** Dicts that were alive before [get_headers] are not touched by it. *)
Lemma with_headers_old self nonce w l :
  is_Some (dicts w !! l) → with_headers self nonce w !! l = dicts w !! l.
Proof.
  intros [d Hd]. unfold with_headers.
  assert (header_loc w ≠ l) as Hh.
  { intros Heq; subst l. rewrite header_loc_fresh in Hd. discriminate. }
  assert (protected_loc self w ≠ l) as Hp.
  { intros Heq; subst l. pose proof (protected_loc_fresh self w) as Hf.
    rewrite lookup_insert_ne in Hf by apply protected_loc_ne. congruence. }
  rewrite !lookup_insert_ne by assumption. reflexivity.
Qed.

(** [exchange], step by step. *)
Lemma exchange_run self payload target hh w :
  exchange self payload target hh w =
  match get_headers self w with
  | (Return _, w1) =>
      match fst (path self (Some "/directory") w),
            fst (path self target w) with
      | Return u, Return t =>
          match respond (sent w) (directory_request u) with
          | Some r0 =>
              send (mkRequest POST t (Some (signed_body self r0 payload))
                      (post_request_headers hh)) w1
          | None => (Raise RequestException, w1)
          end
      | Return u, Raise e => (Raise e, w1)
      | Raise e, _ => (Raise e, w1)
      end
  | (Raise e, w1) => (Raise e, w1)
  end.
Proof.
  unfold exchange, bind, sign, read, ret. rewrite get_headers_run.
  destruct (fst (path self (Some "/directory") w)) as [u|e]; [|reflexivity].
  destruct (respond (sent w) (directory_request u)) as [r0|]; [|reflexivity].
  cbv beta iota delta [bind]. cbn [dicts].
  rewrite with_headers_header, with_headers_protected.
  cbn [default from_option id]. rewrite post_run.
  rewrite (path_indep self target _ w).
  destruct (fst (path self target w)); reflexivity.
Qed.

(** What is known once a signed exchange has returned a response. *)
Lemma exchange_inv self payload target hh w r w' :
  exchange self payload target hh w = (Return r, w') →
  ∃ u r0 t,
    fst (path self (Some "/directory") w) = Return u ∧
    respond (sent w) (directory_request u) = Some r0 ∧
    fst (path self target w) = Return t ∧
    let req := mkRequest POST t (Some (signed_body self r0 payload))
                 (post_request_headers hh) in
    respond (sent w ++ [directory_request u]) req = Some r ∧
    w' = mkWorld (account w)
           (with_headers self (of_optstr (headers r0 !! "Replay-Nonce")) w)
           (sent w ++ [directory_request u; req]).
Proof.
  rewrite exchange_run, get_headers_run.
  destruct (fst (path self (Some "/directory") w)) as [u|e] eqn:Hu;
    [|discriminate].
  destruct (respond (sent w) (directory_request u)) as [r0|] eqn:Hr0;
    [|discriminate].
  destruct (fst (path self target w)) as [t|e] eqn:Ht; [|discriminate].
  rewrite send_run; cbn [sent account dicts].
  destruct (respond (sent w ++ _) _) as [r1|] eqn:Hr; [|discriminate].
  intros Heq; inversion Heq; subst.
  exists u, r0, t. repeat split; try assumption.
  rewrite <- app_assoc. reflexivity.
Qed.

(** A signed exchange does not touch the account. *)
Lemma exchange_account self payload target hh w r w' :
  exchange self payload target hh w = (Return r, w') → account w' = account w.
Proof.
  intros Hx. apply exchange_inv in Hx as (u & r0 & t & _ & _ & _ & _ & ->).
  reflexivity.
Qed.

End world_facts.

(** ** The Link header parser *)

Section link_facts.

(** The loop of the parser finds the first entry that contains the type. *)
Lemma get_link_loop_find links type :
  _get_link_loop links type =
  match List.find (Py.contains type) (map Py.strip links) with
  | Some link =>
      match Py.find ">" link with
      | Some i => Return (Some (Py.slice 1 i link))
      | None => Raise (ValueError "substring not found")
      end
  | None => Return None
  end.
Proof.
  induction links as [|e links IH]; [reflexivity|].
  cbn [_get_link_loop map List.find].
  destruct (Py.contains type (Py.strip e)); [reflexivity|apply IH].
Qed.

Lemma get_link_find header type :
  _get_link header type =
  match first_matching header type with
  | Some link =>
      match Py.find ">" link with
      | Some i => Return (Some (Py.slice 1 i link))
      | None => Raise (ValueError "substring not found")
      end
  | None => Return None
  end.
Proof. apply get_link_loop_find. Qed.

(** On an entry of the form [<url>...] the slice the parser takes is the
    text between the angle brackets. *)
Lemma slice_between_angle rest j :
  Py.find ">" rest = Some j →
  Py.find ">" (String "<" rest) = Some (S j) ∧
  Py.slice 1 (S j) (String "<" rest) = Py.take j rest ∧
  between_angle (String "<" rest) = Some (Py.take j rest).
Proof.
  intros Hj. unfold between_angle, Py.slice. cbn. rewrite Hj. cbn.
  rewrite Nat.sub_0_r. auto.
Qed.

(** An entry matches no relation type exactly when the parser gives
    [None]. *)
Lemma get_link_absent header type :
  first_matching header type = None → _get_link header type = Return None.
Proof. intros Hn. rewrite get_link_find, Hn. reflexivity. Qed.

End link_facts.

(** C7, as stated, fails: the header is one entry of the form
    [<url>;rel="up"] whose URL, [https://ca.example/issuer,v2], holds a
    comma.  The parser cuts the header at the comma; the first piece that
    contains [up] is [v2>;rel="up"], which has no ['<'], so the specified
    extraction gives no URL for it, and the parser returns [2], the text from
    the second character of that piece up to its ['>']: neither the URL
    between the angle brackets of the header nor an absent value. *)
Lemma get_link_counterexample :
  link_entries (Some comma_link)
  = ["<https://ca.example/issuer"; "v2>;rel=" ++ dq ++ "up" ++ dq] ∧
  between_angle comma_link = Some "https://ca.example/issuer,v2" ∧
  get_link_as_specified (Some comma_link) "up" = None ∧
  _get_link (Some comma_link) "up" = Return (Some "2") ∧
  _get_link (Some comma_link) "up"
    ≠ Return (get_link_as_specified (Some comma_link) "up").
Proof.
  repeat split; try (vm_compute; reflexivity). vm_compute. discriminate.
Qed.

(** C7, amended: the parser looks at the first comma-separated entry whose
    text (stripped of surrounding whitespace) contains the relation type.
    When that entry begins with ['<'] and a ['>'] follows, the parser returns
    the URL between the two, which is what the specification's wording
    gives; when that entry contains a ['>'], the parser returns the text from
    the entry's second character up to its first ['>'].  On the header of
    the specification's example it returns [https://ca.example/issuer] for
    [up] and [https://ca.example/acct/1] for [terms-of-service]; and when no
    entry contains the relation type it returns [None]. *)
Theorem get_link_spec (header : option string) (type : string) :
  (∀ rest j,
     first_matching header type = Some (String "<" rest) →
     Py.find ">" rest = Some j →
     _get_link header type = Return (Some (Py.take j rest)) ∧
     _get_link header type = Return (get_link_as_specified header type)) ∧
  (∀ link i,
     first_matching header type = Some link →
     Py.find ">" link = Some i →
     _get_link header type = Return (Some (Py.slice 1 i link))) ∧
  (first_matching header type = None → _get_link header type = Return None) ∧
  _get_link (Some two_links) "up" = Return (Some "https://ca.example/issuer") ∧
  _get_link (Some two_links) "terms-of-service"
    = Return (Some "https://ca.example/acct/1") ∧
  _get_link (Some two_links) "next" = Return None ∧
  _get_link None "up" = Return None.
Proof.
  split; [|split; [|split; [|repeat split]]].
  - intros rest j Hm Hj. rewrite get_link_find. unfold get_link_as_specified.
    rewrite Hm. destruct (slice_between_angle rest j Hj) as (-> & -> & ->).
    split; reflexivity.
  - intros link i Hm Hi. rewrite get_link_find, Hm, Hi. reflexivity.
  - apply get_link_absent.
Qed.

Lemma get_link_spec_witness :
  _get_link (Some two_links) "up" = Return (Some "https://ca.example/issuer") ∧
  _get_link (Some two_links) "up"
  = Return (get_link_as_specified (Some two_links) "up").
Proof.
  exact (proj1 (get_link_spec (Some two_links) "up")
           ("https://ca.example/issuer>;rel=" ++ dq ++ "up" ++ dq) 25%nat
           ltac:(vm_compute; reflexivity) ltac:(vm_compute; reflexivity)).
Defined.

(** ** Registration *)

Section registration.
Context {bh : BracketedHost} {ext : Externals}.

(** [register] is the signed exchange followed by the classification of
    its response. *)
Lemma register_run self email w :
  register self email w =
  match exchange self (register_payload email) (Some "/acme/new-reg") None w with
  | (Return response, w') =>
      (let uri := headers response !! "Location" in
       if status_code response =? 201 then
         let! _ := set_account_uri uri in
         let! terms :=
           lift (_get_link (headers response !! "Link") "terms-of-service") in
         let! contents := _json response in
         ret (mkRegistrationResult contents uri terms)
       else if status_code response =? 409 then
         raise (AccountAlreadyExistsError response uri)
       else raise (AcmeError (OfResponse response))) w'
  | (Raise e, w') => (Raise e, w')
  end.
Proof.
  unfold register, exchange, register_payload, bind.
  destruct (get_headers self w) as [[[h p]|e] w1]; [|reflexivity].
  destruct (sign self h p _ w1) as [[body|e] w2]; [|reflexivity].
  destruct (post self _ body None w2) as [[r|e] w3]; reflexivity.
Qed.

(** The classification of a 201 response. *)
Lemma register_created_run self email w r w' :
  exchange self (register_payload email) (Some "/acme/new-reg") None w
    = (Return r, w') →
  status_code r = 201 →
  register self email w =
  (match _get_link (headers r !! "Link") "terms-of-service" with
   | Return t =>
       match json_loads (content r) with
       | inr c => Return (mkRegistrationResult c (headers r !! "Location") t)
       | inl e => Raise (AcmeError (OfMessage ("Invalid JSON response. " ++ e)))
       end
   | Raise e => Raise (Builtin e)
   end,
   mkWorld (mkAccount (account_key (account w')) (headers r !! "Location"))
     (dicts w') (sent w')).
Proof.
  intros Hx Hs. rewrite register_run, Hx. cbv zeta. rewrite Hs.
  change (201 =? 201) with true. cbv iota.
  unfold bind, set_account_uri, _json. rewrite lift_run.
  destruct (_get_link _ _) as [t|e]; [|reflexivity].
  destruct (json_loads (content r)); reflexivity.
Qed.

End registration.

(** C1, as stated, fails: the CA answers the registration with status 201
    and a body that is not JSON; [register] raises [AcmeError] and returns no
    [RegistrationResult]. *)
Lemma register_created_counterexample :
  exchange (bh := no_bracketed_hosts) (ext := ca_created_not_json)
    example_acme (register_payload "a@b.example") (Some "/acme/new-reg") None
    world0
  = (Return created_not_json,
     snd (exchange (bh := no_bracketed_hosts) (ext := ca_created_not_json)
            example_acme (register_payload "a@b.example")
            (Some "/acme/new-reg") None world0)) ∧
  status_code created_not_json = 201 ∧
  fst (register (bh := no_bracketed_hosts) (ext := ca_created_not_json)
         example_acme "a@b.example" world0)
  = Raise (AcmeError (OfMessage ("Invalid JSON response. " ++ json_error))).
Proof. repeat split; vm_compute; reflexivity. Qed.

(** C1, amended: when the CA answers the registration with status 201,
    [register] sets [Account.uri] to exactly the [Location] header of the
    response (absent if there is none); and when, in addition, the body
    parses as JSON and the [Link] header lookup returns, it returns a
    [RegistrationResult] whose [uri] is that same [Location] value, whose
    [contents] is the parsed body and whose [terms] is what the Link header
    parser returns for [terms-of-service], which is [None] when no entry of
    the header contains that relation. *)
Theorem register_created {bh : BracketedHost} {ext : Externals}
    (self : Acme) (email : string) (w w' : World) (r : Response) :
  exchange self (register_payload email) (Some "/acme/new-reg") None w
    = (Return r, w') →
  status_code r = 201 →
  uri (account (snd (register self email w))) = headers r !! "Location" ∧
  (∀ t c,
     _get_link (headers r !! "Link") "terms-of-service" = Return t →
     json_loads (content r) = inr c →
     fst (register self email w)
     = Return (mkRegistrationResult c (headers r !! "Location") t)) ∧
  (first_matching (headers r !! "Link") "terms-of-service" = None →
   _get_link (headers r !! "Link") "terms-of-service" = Return None).
Proof.
  intros Hx Hs. rewrite (register_created_run self email w r w' Hx Hs).
  split; [reflexivity|split].
  - intros t c -> ->. reflexivity.
  - apply get_link_absent.
Qed.

Lemma register_created_witness :
  uri (account (snd (register (bh := no_bracketed_hosts) (ext := ca_created_json)
                       example_acme "a@b.example" world0)))
  = Some account_url ∧
  fst (register (bh := no_bracketed_hosts) (ext := ca_created_json)
         example_acme "a@b.example" world0)
  = Return (mkRegistrationResult (PDict []) (Some account_url)
              (Some "https://ca.example/terms")).
Proof.
  pose proof (register_created (bh := no_bracketed_hosts) (ext := ca_created_json)
                example_acme "a@b.example" world0 _ created_json
                eq_refl eq_refl) as (Hu & Hr & _).
  split; [exact Hu|].
  apply Hr; reflexivity.
Defined.

(** C2: when the CA answers the registration with status 409, [register]
    raises [AccountAlreadyExistsError] carrying the response and the value of
    its [Location] header; when the status is neither 201 nor 409 it raises
    [AcmeError] carrying the response as it was received.  In both cases
    [Account.uri] is what it was before the call. *)
Theorem register_refused {bh : BracketedHost} {ext : Externals}
    (self : Acme) (email : string) (w w' : World) (r : Response) :
  exchange self (register_payload email) (Some "/acme/new-reg") None w
    = (Return r, w') →
  status_code r ≠ 201 →
  fst (register self email w)
  = Raise (if status_code r =? 409
           then AccountAlreadyExistsError r (headers r !! "Location")
           else AcmeError (OfResponse r)) ∧
  uri (account (snd (register self email w))) = uri (account w).
Proof.
  intros Hx Hs. rewrite register_run, Hx. cbv zeta.
  destruct (Z.eqb_spec (status_code r) 201) as [|_]; [contradiction|].
  rewrite <- (exchange_account _ _ _ _ _ _ _ Hx).
  destruct (status_code r =? 409); split; reflexivity.
Qed.

Lemma register_refused_witness :
  fst (register (bh := no_bracketed_hosts) (ext := ca_conflict)
         example_acme "a@b.example" world0)
  = Raise (AccountAlreadyExistsError conflict (Some account_url)) ∧
  uri (account (snd (register (bh := no_bracketed_hosts) (ext := ca_conflict)
                       example_acme "a@b.example" world0))) = None.
Proof.
  apply (register_refused (bh := no_bracketed_hosts) (ext := ca_conflict)
           example_acme "a@b.example" world0 _ conflict eq_refl).
  discriminate.
Defined.

(** ** The operations as an exchange followed by a classification *)

Section runs.
Context {bh : BracketedHost} {ext : Externals}.

(** Each operation, as its signed exchange followed by what it does with
    the response. *)
Lemma get_registration_run self w :
  get_registration self w =
  match exchange self registration_payload (uri (account w)) None w with
  | (Return r, w') =>
      (if starts_with_2 r then
         match json_loads (content r) with
         | inr v => Return v
         | inl e => Raise (AcmeError (OfMessage ("Invalid JSON response. " ++ e)))
         end
       else Raise (AcmeError (OfResponse r)), w')
  | (Raise e, w') => (Raise e, w')
  end.
Proof.
  unfold get_registration, exchange, registration_payload, bind.
  rewrite get_headers_run.
  destruct (fst (path self (Some "/directory") w)) as [u|e]; [|reflexivity].
  destruct (respond (sent w) (directory_request u)) as [r0|]; [|reflexivity].
  destruct (sign self _ _ _ _) as [[body|e] w2] eqn:Hs;
    unfold sign, bind, read, ret in Hs; inversion Hs; subst.
  unfold get_account_uri; cbn [account].
  destruct (post self _ _ None _) as [[r|e] w3]; [|reflexivity].
  unfold starts_with_2, _json, ret, raise.
  destruct (Py.startswith _ _); [|reflexivity].
  destruct (json_loads (content r)); reflexivity.
Qed.

Lemma new_authorization_run self domain w :
  new_authorization self domain w =
  match exchange self (new_authorization_payload domain)
          (Some "/acme/new-authz") None w with
  | (Return r, w') =>
      (if status_code r =? 201 then
         match json_loads (content r) with
         | inr v =>
             Return (mkNewAuthorizationResult v (headers r !! "Location"))
         | inl e => Raise (AcmeError (OfMessage ("Invalid JSON response. " ++ e)))
         end
       else Raise (AcmeError (OfResponse r)), w')
  | (Raise e, w') => (Raise e, w')
  end.
Proof.
  unfold new_authorization, exchange, new_authorization_payload, bind.
  destruct (get_headers self w) as [[[h p]|e] w1]; [|reflexivity].
  destruct (sign self h p _ w1) as [[body|e] w2]; [|reflexivity].
  destruct (post self _ body None w2) as [[r|e] w3]; [|reflexivity].
  destruct (status_code r =? 201); [|reflexivity].
  unfold _json, ret, raise. destruct (json_loads (content r)); reflexivity.
Qed.

Lemma validate_authorization_run self uri _type key_authorization w :
  validate_authorization self uri _type key_authorization w =
  match exchange self (validate_payload _type key_authorization) uri None w with
  | (Return r, w') =>
      (if starts_with_2 r then Return true
       else Raise (AcmeError (OfResponse r)), w')
  | (Raise e, w') => (Raise e, w')
  end.
Proof.
  unfold validate_authorization, exchange, validate_payload, bind.
  destruct (get_headers self w) as [[[h p]|e] w1]; [|reflexivity].
  destruct (sign self h p _ w1) as [[body|e] w2]; [|reflexivity].
  destruct (post self _ body None w2) as [[r|e] w3]; [|reflexivity].
  unfold starts_with_2. destruct (Py.startswith _ _); reflexivity.
Qed.

Lemma get_authorization_run self uri w :
  get_authorization self uri w =
  match get self uri None w with
  | (Return r, w') =>
      (match json_loads (content r) with
       | inr v => Return v
       | inl e => Raise (AcmeError (OfException (ValueError e)))
       end, w')
  | (Raise e, w') => (Raise e, w')
  end.
Proof.
  unfold get_authorization, bind.
  destruct (get self uri None w) as [[r|e] w1]; [|reflexivity].
  destruct (json_loads (content r)); reflexivity.
Qed.

Lemma issue_certificate_run self csr w :
  issue_certificate self csr w =
  match exchange self (new_cert_payload csr) (Some "/acme/new-cert")
          (Some pkix_headers) w with
  | (Return r, w') =>
      if status_code r =? 201 then
        match _get_link (headers r !! "Link") "up" with
        | Return (Some c) =>
            if Py.truthy c then
              (match respond (sent w') (issuer_request c) with
               | Some r2 =>
                   Return (mkIssuanceResult (content r)
                             (headers r !! "Location")
                             (Some (Bytes (content r2))))
               | None => Raise RequestException
               end,
               mkWorld (account w') (dicts w') (sent w' ++ [issuer_request c]))
            else
              (Return (mkIssuanceResult (content r) (headers r !! "Location")
                         (Some (Str c))), w')
        | Return None =>
            (Return (mkIssuanceResult (content r) (headers r !! "Location")
                       None), w')
        | Raise e => (Raise (Builtin e), w')
        end
      else (Raise (AcmeError (OfResponse r)), w')
  | (Raise e, w') => (Raise e, w')
  end.
Proof.
  unfold issue_certificate, exchange, new_cert_payload, pkix_headers, bind.
  destruct (get_headers self w) as [[[h p]|e] w1]; [|reflexivity].
  destruct (sign self h p _ w1) as [[body|e] w2]; [|reflexivity].
  destruct (post self _ body _ w2) as [[r|e] w3]; [|reflexivity].
  destruct (status_code r =? 201); [|reflexivity].
  rewrite lift_run. destruct (_get_link _ _) as [[c|]|e]; try reflexivity.
  destruct (Py.truthy c); [|reflexivity].
  rewrite send_run. unfold issuer_request.
  destruct (respond _ _); reflexivity.
Qed.

(** The dict object [update_registration] works on is alive. *)
Lemma update_registration_params_run params w :
  ∃ l d w0,
    update_registration_params params w = (Return l, w0) ∧
    dicts w0 !! l = Some (<["resource" := PStr "reg"]> d) ∧
    account w0 = account w ∧ sent w0 = sent w ∧
    match params with
    | Some l0 =>
        match dicts w !! l0 with
        | Some d0 =>
            if dict_truthy d0 then l = l0 ∧ d = d0
            else d = ∅ ∧ dicts w0 !! l0 = Some d0
        | None => d = ∅
        end
    | None => d = ∅
    end ∧
    ∀ l', l' ≠ l → dicts w0 !! l' = dicts w !! l'.
Proof.
  unfold update_registration_params, params_or_new, bind, read, alloc,
    setitem, ret.
  assert (∀ v : World,
    let l := fresh (dom (dicts v)) in
    let ds := alter <["resource":=PStr "reg"]> l (<[l:=∅]> (dicts v)) in
    ds !! l = Some (<["resource":=PStr "reg"]> ∅)
    ∧ (∀ l', is_Some (dicts v !! l') → ds !! l' = dicts v !! l')
    ∧ ∀ l', l' ≠ l → ds !! l' = dicts v !! l') as Hnew.
  { intros v l ds. subst ds. rewrite alter_insert_eq, lookup_insert_eq.
    repeat split.
    - intros l' [d' Hd']. rewrite lookup_insert_ne; [reflexivity|].
      intros <-. pose proof (header_loc_fresh v) as Hf.
      unfold header_loc in Hf. subst l. congruence.
    - intros l' Hne. rewrite lookup_insert_ne; [reflexivity|]. congruence. }
  specialize (Hnew w). cbv zeta in Hnew. destruct Hnew as (Hl & Hold & Hoth).
  destruct params as [l0|].
  - destruct (dicts w !! l0) as [d0|] eqn:Hd0; cbn [default from_option id].
    + destruct (dict_truthy d0) eqn:Ht.
      * exists l0, d0, (mkWorld (account w)
          (alter <["resource":=PStr "reg"]> l0 (dicts w)) (sent w)).
        split; [reflexivity|]. cbn [dicts account sent].
        rewrite lookup_alter_eq, Hd0. repeat split.
        intros l' Hne. rewrite lookup_alter_ne; [reflexivity|]. congruence.
      * eexists _, ∅, _. split; [reflexivity|]. cbn [dicts account sent].
        repeat split; try assumption. rewrite Hold, Hd0; eauto.
    + change (dict_truthy ∅) with false. cbv iota.
      eexists _, ∅, _. split; [reflexivity|]. cbn [dicts account sent].
      repeat split; assumption.
  - eexists _, ∅, _. split; [reflexivity|]. cbn [dicts account sent].
    repeat split; assumption.
Qed.

(** [update_registration] after its first two statements: the exchange
    signs the contents of the marked dict and posts to the account URI. *)
Lemma update_registration_run self params w l w0 :
  update_registration_params params w = (Return l, w0) →
  is_Some (dicts w0 !! l) →
  update_registration self params w =
  match exchange self (default ∅ (dicts w0 !! l)) (uri (account w0)) None w0
  with
  | (Return r, w') =>
      (if starts_with_2 r then Return true
       else Raise (AcmeError (OfResponse r)), w')
  | (Raise e, w') => (Raise e, w')
  end.
Proof.
  intros Hp Hl. unfold update_registration, update_registration_params in *.
  unfold bind in Hp. unfold bind at 1 2.
  destruct (params_or_new params w) as [[l1|e] w1]; [|discriminate].
  destruct (setitem l1 "resource" (PStr "reg") w1) as [[[]|e] w2];
    [|discriminate].
  unfold ret in Hp. inversion Hp; subst l1 w2. clear Hp.
  unfold exchange, bind. rewrite get_headers_run.
  destruct (fst (path self (Some "/directory") w0)) as [u|e]; [|reflexivity].
  destruct (respond (sent w0) (directory_request u)) as [r0|]; [|reflexivity].
  unfold read, sign, bind, read, ret, get_account_uri. cbn [dicts account].
  rewrite (with_headers_old self _ w0 l Hl).
  destruct (post self _ _ None _) as [[r|e] w3]; [|reflexivity].
  unfold starts_with_2. destruct (Py.startswith _ _); reflexivity.
Qed.

End runs.

(** ** The caller's dict in [update_registration] *)

Section params_facts.
Context {bh : BracketedHost} {ext : Externals}.

(** [get_headers] leaves the dicts that were alive as they are, whether it
    returns or raises. *)
Lemma get_headers_old self w l :
  is_Some (dicts w !! l) →
  dicts (snd (get_headers self w)) !! l = dicts w !! l.
Proof.
  intros Hl. rewrite get_headers_run.
  assert (<[protected_loc self w := generate_header (key self)]>
            (<[header_loc w := generate_header (key self)]> (dicts w)) !! l
          = dicts w !! l) as Hpartial.
  { destruct Hl as [d Hd]. rewrite !lookup_insert_ne; [reflexivity| |].
    - intros Heq; subst l. rewrite header_loc_fresh in Hd. discriminate.
    - intros Heq; subst l. pose proof (protected_loc_fresh self w) as Hf.
      rewrite lookup_insert_ne in Hf by apply protected_loc_ne. congruence. }
  destruct (fst (path self (Some "/directory") w)); [|exact Hpartial].
  destruct (respond _ _); [|exact Hpartial].
  apply with_headers_old, Hl.
Qed.

(** Signing and posting touch no dict. *)
Lemma exchange_dicts self payload target hh w :
  dicts (snd (exchange self payload target hh w))
  = dicts (snd (get_headers self w)).
Proof.
  rewrite exchange_run.
  destruct (get_headers self w) as [[hp|e] w1]; [|reflexivity].
  destruct (fst (path self (Some "/directory") w)); [|reflexivity].
  destruct (fst (path self target w)); [|reflexivity].
  destruct (respond _ _); [|reflexivity].
  rewrite send_run. reflexivity.
Qed.

(** A non-empty dict is true. *)
Lemma dict_truthy_nonempty (d : gmap string pyval) :
  d ≠ ∅ → dict_truthy d = true.
Proof.
  intros Hd. unfold dict_truthy. rewrite bool_decide_eq_false_2 by exact Hd.
  reflexivity.
Qed.

(** The world [update_registration] ends in: that of the exchange it
    makes after marking the dict. *)
Lemma update_registration_world self l d w :
  dicts w !! l = Some d → d ≠ ∅ →
  ∃ w0,
    update_registration_params (Some l) w = (Return l, w0) ∧
    dicts w0 !! l = Some (<["resource" := PStr "reg"]> d) ∧
    account w0 = account w ∧ sent w0 = sent w ∧
    snd (update_registration self (Some l) w)
    = snd (exchange self (<["resource" := PStr "reg"]> d)
             (uri (account w)) None w0).
Proof.
  intros Hd Hne.
  destruct (update_registration_params_run (Some l) w)
    as (l' & d' & w0 & Hp & Hl & Ha & Hs & Hcase & _).
  rewrite Hd, (dict_truthy_nonempty d Hne) in Hcase.
  destruct Hcase as [-> ->]. exists w0. repeat split; try assumption.
  rewrite (update_registration_run self (Some l) w l w0 Hp) by (rewrite Hl; eauto).
  rewrite Hl, Ha. cbn [default from_option id].
  destruct (exchange _ _ _ _ _) as [[r|e] w']; reflexivity.
Qed.

End params_facts.

(** C10, as stated, fails: the caller passes a non-empty dict that already
    maps [resource] to [reg]; after the call the dict holds what it held
    before. *)
Lemma update_registration_counterexample :
  let w := world_with_params registration_payload in
  dicts w !! 1%positive = Some registration_payload ∧
  registration_payload ≠ ∅ ∧
  dicts (snd (update_registration (bh := no_bracketed_hosts) (ext := ca_accepted)
                example_acme (Some 1%positive) w)) !! 1%positive
  = dicts w !! 1%positive.
Proof.
  cbv zeta. split; [reflexivity|split].
  - intros Heq. apply (f_equal (lookup "resource")) in Heq. discriminate.
  - vm_compute. reflexivity.
Qed.

(** C10, amended: for every non-empty dict passed as [params], the call
    writes into the caller's own dict object: afterwards, whether the call
    returned or raised, that object maps [resource] to [reg] and is otherwise
    as it was, and the payload that is signed and posted is that same dict.
    The dict is left as it was exactly when it already mapped [resource] to
    [reg]. *)
Theorem update_registration_mutates {bh : BracketedHost} {ext : Externals}
    (self : Acme) (l : positive) (d : gmap string pyval) (w : World) :
  dicts w !! l = Some d →
  d ≠ ∅ →
  let w' := snd (update_registration self (Some l) w) in
  dicts w' !! l = Some (<["resource" := PStr "reg"]> d) ∧
  (dicts w' !! l = dicts w !! l ↔ d !! "resource" = Some (PStr "reg")) ∧
  (∀ u r0 t,
     fst (path self (Some "/directory") w) = Return u →
     respond (sent w) (directory_request u) = Some r0 →
     fst (path self (uri (account w)) w) = Return t →
     sent w' =
     (sent w ++
       [directory_request u;
        mkRequest POST t
          (Some (signed_body self r0 (<["resource" := PStr "reg"]> d)))
          (post_request_headers None)])%list).
Proof.
  intros Hd Hne w'.
  destruct (update_registration_world self l d w Hd Hne)
    as (w0 & Hp & Hl & Ha & Hs & Hw).
  assert (dicts w' !! l = Some (<["resource" := PStr "reg"]> d)) as Hafter.
  { subst w'. rewrite Hw, exchange_dicts, get_headers_old by (rewrite Hl; eauto).
    exact Hl. }
  split; [exact Hafter|split].
  - rewrite Hafter, Hd. split.
    + intros [= Heq]. rewrite <- Heq. apply lookup_insert_eq.
    + intros Hr. f_equal. apply insert_id, Hr.
  - intros u r0 t Hu Hr0 Ht. subst w'. rewrite Hw, exchange_run, get_headers_run.
    rewrite (path_indep self (Some "/directory") w0 w), Hu.
    rewrite (path_indep self (uri (account w)) w0 w), Ht, Hs, Hr0.
    rewrite send_run. cbn [snd sent]. rewrite <- app_assoc. reflexivity.
Qed.

Lemma update_registration_mutates_witness :
  dicts (snd (update_registration (bh := no_bracketed_hosts) (ext := ca_accepted)
                example_acme (Some 1%positive)
                (world_with_params agreement_params))) !! 1%positive
  = Some (<["resource" := PStr "reg"]> agreement_params).
Proof.
  refine (proj1 (update_registration_mutates (bh := no_bracketed_hosts)
                   (ext := ca_accepted) example_acme 1%positive agreement_params
                   (world_with_params agreement_params) eq_refl _)).
  intros Heq. apply (f_equal (lookup "agreement")) in Heq. discriminate.
Defined.

(** ** Status codes *)

Section status_facts.

(** Among the three-digit codes, the ones whose decimal form starts with the
    digit 2 are 200 to 299. *)
Lemma three_digit_codes (n : Z) :
  100 ≤ n ≤ 999 →
  Py.startswith (Py.str_int n) "2" = (200 <=? n) && (n <=? 299).
Proof.
  intros Hn.
  assert (forallb (fun k : nat =>
            Bool.eqb (Py.startswith (Py.str_int (100 + Z.of_nat k)) "2")
                     ((200 <=? 100 + Z.of_nat k) && (100 + Z.of_nat k <=? 299)))
            (seq 0 900) = true) as Hall by (vm_compute; reflexivity).
  rewrite forallb_forall in Hall.
  specialize (Hall (Z.to_nat (n - 100))).
  replace (100 + Z.of_nat (Z.to_nat (n - 100))) with n in Hall by lia.
  apply Bool.eqb_prop, Hall, in_seq. lia.
Qed.

End status_facts.

(** C3, as stated, fails: the CA answers [get_registration] with status 204
    and an empty body; the status starts with the digit 2, yet the call
    raises [AcmeError] instead of returning a parsed body. *)
Lemma status_classification_counterexample :
  exchange (bh := no_bracketed_hosts) (ext := ca_no_content) example_acme
    registration_payload (Some account_url) None world_registered
  = (Return no_content,
     snd (exchange (bh := no_bracketed_hosts) (ext := ca_no_content)
            example_acme registration_payload (Some account_url) None
            world_registered)) ∧
  Py.startswith (Py.str_int (status_code no_content)) "2" = true ∧
  fst (get_registration (bh := no_bracketed_hosts) (ext := ca_no_content)
         example_acme world_registered)
  = Raise (AcmeError (OfMessage ("Invalid JSON response. " ++ json_error))).
Proof. repeat split; vm_compute; reflexivity. Qed.

(** C3, amended: [update_registration] and [validate_authorization] return
    [True] if and only if the decimal form of the status code starts with the
    digit 2, and otherwise raise [AcmeError] with the response;
    [get_registration] returns the parsed body if and only if the status
    starts with the digit 2 and the body parses as JSON, and raises
    [AcmeError] otherwise.  200, 204 and 299 start with the digit 2, and among
    three-digit codes exactly 200 to 299 do.  [register],
    [new_authorization] and [issue_certificate] raise on every status other
    than 201. *)
Theorem status_classification {bh : BracketedHost} {ext : Externals}
    (self : Acme) (w w' : World) (r : Response) :
  (exchange self registration_payload (uri (account w)) None w = (Return r, w') →
   fst (get_registration self w)
   = if Py.startswith (Py.str_int (status_code r)) "2" then
       match json_loads (content r) with
       | inr v => Return v
       | inl e => Raise (AcmeError (OfMessage ("Invalid JSON response. " ++ e)))
       end
     else Raise (AcmeError (OfResponse r))) ∧
  (∀ params l w0,
     update_registration_params params w = (Return l, w0) →
     exchange self (default ∅ (dicts w0 !! l)) (uri (account w0)) None w0
       = (Return r, w') →
     fst (update_registration self params w)
     = if Py.startswith (Py.str_int (status_code r)) "2" then Return true
       else Raise (AcmeError (OfResponse r))) ∧
  (∀ uri _type key_authorization,
     exchange self (validate_payload _type key_authorization) uri None w
       = (Return r, w') →
     fst (validate_authorization self uri _type key_authorization w)
     = if Py.startswith (Py.str_int (status_code r)) "2" then Return true
       else Raise (AcmeError (OfResponse r))) ∧
  (∀ email,
     exchange self (register_payload email) (Some "/acme/new-reg") None w
       = (Return r, w') →
     status_code r ≠ 201 →
     ∃ e, fst (register self email w) = Raise e) ∧
  (∀ domain,
     exchange self (new_authorization_payload domain) (Some "/acme/new-authz")
       None w = (Return r, w') →
     status_code r ≠ 201 →
     fst (new_authorization self domain w) = Raise (AcmeError (OfResponse r))) ∧
  (∀ csr,
     exchange self (new_cert_payload csr) (Some "/acme/new-cert")
       (Some pkix_headers) w = (Return r, w') →
     status_code r ≠ 201 →
     fst (issue_certificate self csr w) = Raise (AcmeError (OfResponse r))) ∧
  Py.startswith (Py.str_int 200) "2" = true ∧
  Py.startswith (Py.str_int 204) "2" = true ∧
  Py.startswith (Py.str_int 299) "2" = true ∧
  (∀ n, 100 ≤ n ≤ 999 →
     (Py.startswith (Py.str_int n) "2" = true ↔ 200 ≤ n ≤ 299)).
Proof.
  repeat apply conj; try reflexivity.
  - intros Hx. rewrite get_registration_run, Hx. reflexivity.
  - intros params l w0 Hp Hx.
    destruct (update_registration_params_run params w)
      as (l' & d' & w0' & Hp' & Hl & _).
    rewrite Hp in Hp'. inversion Hp'; subst l' w0'.
    rewrite (update_registration_run self params w l w0 Hp), Hx
      by (rewrite Hl; eauto).
    reflexivity.
  - intros uri _type ka Hx. rewrite validate_authorization_run, Hx. reflexivity.
  - intros email Hx Hs. rewrite register_run, Hx. cbv zeta.
    destruct (Z.eqb_spec (status_code r) 201) as [|_]; [contradiction|].
    destruct (status_code r =? 409); eexists; reflexivity.
  - intros domain Hx Hs. rewrite new_authorization_run, Hx.
    destruct (Z.eqb_spec (status_code r) 201) as [|_]; [contradiction|].
    reflexivity.
  - intros csr Hx Hs. rewrite issue_certificate_run, Hx.
    destruct (Z.eqb_spec (status_code r) 201) as [|_]; [contradiction|].
    reflexivity.
  - intros n Hn. rewrite (three_digit_codes n Hn).
    rewrite andb_true_iff, !Z.leb_le. reflexivity.
Qed.

Lemma status_classification_witness :
  fst (get_registration (bh := no_bracketed_hosts) (ext := ca_accepted)
         example_acme world_registered)
  = Return (PDict []).
Proof.
  exact (proj1 (status_classification (bh := no_bracketed_hosts)
                  (ext := ca_accepted) example_acme world_registered _ accepted)
           eq_refl).
Defined.

(** ** Bodies that are not JSON *)

(** C8, as stated, fails: the CA answers the registration with status 201,
    a body that is not JSON and a [Link] header whose [terms-of-service]
    entry has no ['>'].  [register] reads the [Link] header before the body,
    so what the caller sees is the [ValueError] of the header lookup, not an
    [AcmeError]. *)
Lemma json_failure_wrapped_counterexample :
  exchange (bh := no_bracketed_hosts) (ext := ca_created_bad_link_not_json)
    example_acme (register_payload "a@b.example") (Some "/acme/new-reg") None
    world0
  = (Return created_bad_link_not_json,
     snd (exchange (bh := no_bracketed_hosts)
            (ext := ca_created_bad_link_not_json)
            example_acme (register_payload "a@b.example")
            (Some "/acme/new-reg") None world0)) ∧
  status_code created_bad_link_not_json = 201 ∧
  json_loads (Externals := ca_created_bad_link_not_json)
    (content created_bad_link_not_json) = inl json_error ∧
  fst (register (bh := no_bracketed_hosts) (ext := ca_created_bad_link_not_json)
         example_acme "a@b.example" world0)
  = Raise (Builtin (ValueError "substring not found")).
Proof. repeat split; vm_compute; reflexivity. Qed.

(** C8, amended: a body that does not parse as JSON makes the operation
    raise [AcmeError] carrying the parse failure in these cases:
    [get_authorization], whatever the status, wraps the exception itself;
    [get_registration] (on a status starting with 2), [new_authorization]
    (on 201) and [register] (on 201, when the Link header lookup has
    returned) wrap its message.  The [ValueError] of the JSON parser is not
    what the caller sees then. *)
Theorem json_failure_wrapped {bh : BracketedHost} {ext : Externals}
    (self : Acme) (w w' : World) (r : Response) (msg : string) :
  json_loads (content r) = inl msg →
  (∀ uri,
     get self uri None w = (Return r, w') →
     get_authorization self uri w
     = (Raise (AcmeError (OfException (ValueError msg))), w')) ∧
  (exchange self registration_payload (uri (account w)) None w = (Return r, w') →
   Py.startswith (Py.str_int (status_code r)) "2" = true →
   get_registration self w
   = (Raise (AcmeError (OfMessage ("Invalid JSON response. " ++ msg))), w')) ∧
  (∀ domain,
     exchange self (new_authorization_payload domain) (Some "/acme/new-authz")
       None w = (Return r, w') →
     status_code r = 201 →
     new_authorization self domain w
     = (Raise (AcmeError (OfMessage ("Invalid JSON response. " ++ msg))), w')) ∧
  (∀ email t,
     exchange self (register_payload email) (Some "/acme/new-reg") None w
       = (Return r, w') →
     status_code r = 201 →
     _get_link (headers r !! "Link") "terms-of-service" = Return t →
     fst (register self email w)
     = Raise (AcmeError (OfMessage ("Invalid JSON response. " ++ msg)))).
Proof.
  intros Hj. repeat apply conj.
  - intros uri Hg. rewrite get_authorization_run, Hg, Hj. reflexivity.
  - intros Hx Hs. rewrite get_registration_run, Hx. unfold starts_with_2.
    rewrite Hs, Hj. reflexivity.
  - intros domain Hx Hs. rewrite new_authorization_run, Hx, Hs, Hj. reflexivity.
  - intros email t Hx Hs Ht.
    rewrite (register_created_run self email w r w' Hx Hs), Ht, Hj. reflexivity.
Qed.

Lemma json_failure_wrapped_witness :
  fst (register (bh := no_bracketed_hosts) (ext := ca_created_not_json)
         example_acme "a@b.example" world0)
  = Raise (AcmeError (OfMessage ("Invalid JSON response. " ++ json_error))).
Proof.
  refine (proj2 (proj2 (proj2
            (json_failure_wrapped (bh := no_bracketed_hosts)
               (ext := ca_created_not_json) example_acme world0 _
               created_not_json json_error eq_refl)))
            "a@b.example" None eq_refl eq_refl eq_refl).
Defined.

(** ** The header builder *)



(** ** Path resolution *)

Section path_facts.
Context {bh : BracketedHost}.

(** [Acme.path] on a str argument. *)
Lemma path_some_run self p w :
  path self (Some p) w =
  (if Py.startswith p "http" then
     match urllib.urlparse p EmptyString with
     | Return r => builtin (urllib.urljoin (url self) (urllib.path r))
     | Raise e => Raise (Builtin e)
     end
   else builtin (urllib.urljoin (url self) p), w).
Proof.
  unfold path, bind. destruct (Py.startswith p "http").
  - rewrite lift_run. destruct (urllib.urlparse p EmptyString); [|reflexivity].
    unfold ret. rewrite lift_run. reflexivity.
  - unfold ret. rewrite lift_run. reflexivity.
Qed.

(** An input that starts with [http] and whose path component begins with
    exactly one slash resolves to a URL on the origin of the base. *)
Lemma path_origin self p w pr b :
  Py.startswith p "http" = true →
  urllib.urlparse p EmptyString = Return pr →
  single_slash (urllib.path pr) →
  urllib.urlparse (url self) EmptyString = Return b →
  urllib.scheme b = "https" ∨ urllib.scheme b = "http" →
  Py.truthy (urllib.netloc b) = true →
  ∃ u, path self (Some p) w = (Return u, w) ∧ extends (origin b) u.
Proof.
  intros Hp Hpr Hss Hb Hs Hn.
  destruct (urljoin_origin (url self) b (urllib.path pr) Hb Hs Hn Hss
              (urlparse_clean p EmptyString pr Hpr)) as (u & Hu & He).
  exists u. split; [|exact He].
  rewrite path_some_run, Hp, Hpr, Hu. reflexivity.
Qed.

End path_facts.

(** C4: [Acme.path] does not make every absolute input relative, against
    the comment in its body.  With base [https://ca.example/], the inputs
    [ftp://attacker.example/x] and [HTTP://attacker.example/x] do not start
    with [http], are not reduced to their path, and come back as they are;
    [//attacker.example/x] comes back on the host it names.  None of the
    three results is on the base.  The input of the specification's example,
    [https://attacker.example/acme/new-authz], is resolved to
    [https://ca.example/acme/new-authz]. *)
Theorem path_not_relative {bh : BracketedHost} (k : string) (w : World) :
  path (mkAcme "https://ca.example/" k) (Some "ftp://attacker.example/x") w
  = (Return "ftp://attacker.example/x", w) ∧
  path (mkAcme "https://ca.example/" k) (Some "HTTP://attacker.example/x") w
  = (Return "HTTP://attacker.example/x", w) ∧
  path (mkAcme "https://ca.example/" k) (Some "//attacker.example/x") w
  = (Return "https://attacker.example/x", w) ∧
  ¬ extends "https://ca.example/" "ftp://attacker.example/x" ∧
  ¬ extends "https://ca.example/" "HTTP://attacker.example/x" ∧
  ¬ extends "https://ca.example/" "https://attacker.example/x" ∧
  path (mkAcme "https://ca.example/" k)
    (Some "https://attacker.example/acme/new-authz") w
  = (Return "https://ca.example/acme/new-authz", w).
Proof.
  repeat apply conj; try reflexivity; intros [rest Hr]; discriminate Hr.
Qed.

(** ** Issuance *)

Section issuance_facts.
Context {bh : BracketedHost} {ext : Externals}.

(** The 201 branch of [issue_certificate] when the Link header lookup gives
    a non-empty URL. *)
Lemma issue_certificate_fetch self csr w w' r c :
  exchange self (new_cert_payload csr) (Some "/acme/new-cert")
    (Some pkix_headers) w = (Return r, w') →
  status_code r = 201 →
  _get_link (headers r !! "Link") "up" = Return (Some c) →
  c ≠ EmptyString →
  issue_certificate self csr w =
  (match respond (sent w') (issuer_request c) with
   | Some r2 =>
       Return (mkIssuanceResult (content r) (headers r !! "Location")
                 (Some (Bytes (content r2))))
   | None => Raise RequestException
   end,
   mkWorld (account w') (dicts w') (sent w' ++ [issuer_request c])).
Proof.
  intros Hx Hs Hl Hc. rewrite issue_certificate_run, Hx, Hs, Hl.
  change (201 =? 201) with true. cbv iota.
  destruct c; [contradiction|reflexivity].
Qed.

End issuance_facts.

(** C6, as stated, fails: the [Link] header of the 201 response has a
    [terms-of-service] relation only, but the text of that entry contains
    [up] (in [support]); the driver takes its URL for the issuer's, makes the
    second GET and returns the bytes it fetched as the intermediate. *)
Lemma issue_certificate_counterexample :
  exchange (bh := no_bracketed_hosts) (ext := ca_with_support) example_acme
    (new_cert_payload "csr") (Some "/acme/new-cert") (Some pkix_headers) world0
  = (Return issued_with_support,
     snd (exchange (bh := no_bracketed_hosts) (ext := ca_with_support)
            example_acme (new_cert_payload "csr") (Some "/acme/new-cert")
            (Some pkix_headers) world0)) ∧
  status_code issued_with_support = 201 ∧
  has_relation (headers issued_with_support !! "Link") "up" = false ∧
  fst (issue_certificate (bh := no_bracketed_hosts) (ext := ca_with_support)
         example_acme "csr" world0)
  = Return (mkIssuanceResult "DER" (Some certificate_url) (Some (Bytes "ISSUER"))) ∧
  last (sent (snd (issue_certificate (bh := no_bracketed_hosts)
                     (ext := ca_with_support) example_acme "csr" world0)))
  = Some (issuer_request (ext := ca_with_support) "https://ca.example/support").
Proof. repeat split; vm_compute; reflexivity. Qed.

(** C6, amended: when the CA answers the issuance with status 201, the
    certificate of the result is the response body and its location is the
    [Location] header.  If the first entry of the [Link] header whose text
    contains [up] yields a non-empty URL, a second GET goes to that URL and
    the intermediate is the bytes it fetched; if no entry of the header
    contains [up], the intermediate is absent (not empty bytes) and no second
    request is made. *)
Theorem issue_certificate_created {bh : BracketedHost} {ext : Externals}
    (self : Acme) (csr : string) (w w' : World) (r : Response) :
  exchange self (new_cert_payload csr) (Some "/acme/new-cert")
    (Some pkix_headers) w = (Return r, w') →
  status_code r = 201 →
  (∀ c r2,
     _get_link (headers r !! "Link") "up" = Return (Some c) →
     c ≠ EmptyString →
     respond (sent w') (issuer_request c) = Some r2 →
     issue_certificate self csr w
     = (Return (mkIssuanceResult (content r) (headers r !! "Location")
                  (Some (Bytes (content r2)))),
        mkWorld (account w') (dicts w') (sent w' ++ [issuer_request c]))) ∧
  (first_matching (headers r !! "Link") "up" = None →
   issue_certificate self csr w
   = (Return (mkIssuanceResult (content r) (headers r !! "Location") None),
      w')) ∧
  (∀ rest j,
     first_matching (headers r !! "Link") "up" = Some (String "<" rest) →
     Py.find ">" rest = Some j →
     _get_link (headers r !! "Link") "up" = Return (Some (Py.take j rest))).
Proof.
  intros Hx Hs. repeat apply conj.
  - intros c r2 Hl Hc Hr2.
    rewrite (issue_certificate_fetch self csr w w' r c Hx Hs Hl Hc), Hr2.
    reflexivity.
  - intros Hn. rewrite issue_certificate_run, Hx, Hs.
    rewrite (get_link_absent _ _ Hn). reflexivity.
  - intros rest j Hm Hj. rewrite get_link_find, Hm.
    destruct (slice_between_angle rest j Hj) as (-> & -> & _). reflexivity.
Qed.

Lemma issue_certificate_created_witness :
  fst (issue_certificate (bh := no_bracketed_hosts) (ext := ca_with_issuer)
         example_acme "csr" world0)
  = Return (mkIssuanceResult "DER" (Some certificate_url) (Some (Bytes "ISSUER"))).
Proof.
  pose proof (issue_certificate_created (bh := no_bracketed_hosts)
                (ext := ca_with_issuer) example_acme "csr" world0 _
                issued_with_issuer eq_refl eq_refl) as (Hfetch & _ & _).
  rewrite (Hfetch "https://ca.example/issuer" issuer_certificate eq_refl
             ltac:(discriminate) eq_refl).
  reflexivity.
Defined.

(** * Further properties of the driver *)

(** ** What every operation leaves alone *)

Section frame_facts.
Context {bh : BracketedHost} {ext : Externals}.

(** [get_headers] does not touch the account, whatever its outcome. *)
Lemma get_headers_account self w :
  account (snd (get_headers self w)) = account w.
Proof.
  rewrite get_headers_run.
  destruct (fst (path self (Some "/directory") w)); [|reflexivity].
  destruct (respond _ _); reflexivity.
Qed.

(** A signed exchange ends in the world [get_headers] left, with at most
    one more request recorded. *)
Lemma exchange_world self payload target hh w :
  account (snd (exchange self payload target hh w)) = account w ∧
  dicts (snd (exchange self payload target hh w))
  = dicts (snd (get_headers self w)).
Proof.
  split; [|apply exchange_dicts].
  rewrite exchange_run. pose proof (get_headers_account self w) as Ha.
  destruct (get_headers self w) as [[hp|e] w1]; cbn [snd] in Ha |- *;
    [|exact Ha].
  destruct (fst (path self (Some "/directory") w)); [|exact Ha].
  destruct (fst (path self target w)); [|exact Ha].
  destruct (respond _ _); [|exact Ha].
  rewrite send_run. exact Ha.
Qed.

(** The lenient and the creating operations end in the world of their
    exchange. *)
Lemma get_registration_world self w :
  snd (get_registration self w)
  = snd (exchange self registration_payload (uri (account w)) None w).
Proof.
  rewrite get_registration_run. destruct (exchange _ _ _ _ _) as [[r|e] w'];
    reflexivity.
Qed.

Lemma new_authorization_world self domain w :
  snd (new_authorization self domain w)
  = snd (exchange self (new_authorization_payload domain)
           (Some "/acme/new-authz") None w).
Proof.
  rewrite new_authorization_run. destruct (exchange _ _ _ _ _) as [[r|e] w'];
    reflexivity.
Qed.

Lemma validate_authorization_world self uri _type ka w :
  snd (validate_authorization self uri _type ka w)
  = snd (exchange self (validate_payload _type ka) uri None w).
Proof.
  rewrite validate_authorization_run.
  destruct (exchange _ _ _ _ _) as [[r|e] w']; reflexivity.
Qed.

Lemma update_registration_any_world self params w :
  ∃ l w0,
    update_registration_params params w = (Return l, w0) ∧
    is_Some (dicts w0 !! l) ∧
    snd (update_registration self params w)
    = snd (exchange self (default ∅ (dicts w0 !! l)) (uri (account w0)) None w0).
Proof.
  destruct (update_registration_params_run params w)
    as (l & d & w0 & Hp & Hl & _).
  exists l, w0. split; [exact Hp|]. split; [rewrite Hl; eauto|].
  rewrite (update_registration_run self params w l w0 Hp) by (rewrite Hl; eauto).
  destruct (exchange _ _ _ _ _) as [[r|e] w']; reflexivity.
Qed.

Lemma issue_certificate_world self csr w :
  account (snd (issue_certificate self csr w)) = account w ∧
  dicts (snd (issue_certificate self csr w)) = dicts (snd (get_headers self w)).
Proof.
  rewrite issue_certificate_run.
  destruct (exchange_world self (new_cert_payload csr) (Some "/acme/new-cert")
              (Some pkix_headers) w) as [Ha Hd].
  destruct (exchange _ _ _ _ _) as [[r|e] w']; cbn [snd] in Ha, Hd |- *;
    [|split; assumption].
  destruct (status_code r =? 201); [|split; assumption].
  destruct (_get_link _ _) as [[c|]|e]; try (split; assumption).
  destruct (Py.truthy c); split; assumption.
Qed.

Lemma get_authorization_world self uri w :
  account (snd (get_authorization self uri w)) = account w ∧
  dicts (snd (get_authorization self uri w)) = dicts w.
Proof.
  rewrite get_authorization_run, get_run.
  destruct (fst (path self uri w)); [|split; reflexivity].
  rewrite send_run. destruct (respond _ _); [|split; reflexivity]. 
  destruct (json_loads _); split; reflexivity.
Qed.

Lemma register_world self email w :
  account_key (account (snd (register self email w))) = account_key (account w) ∧
  dicts (snd (register self email w)) = dicts (snd (get_headers self w)) ∧
  (uri (account (snd (register self email w))) ≠ uri (account w) →
   ∃ r w', exchange self (register_payload email) (Some "/acme/new-reg") None w
           = (Return r, w') ∧ status_code r = 201).
Proof.
  rewrite register_run.
  destruct (exchange_world self (register_payload email) (Some "/acme/new-reg")
              None w) as [Ha Hd].
  destruct (exchange _ _ _ _ _) as [[r|e] w'] eqn:Hx; cbn [snd] in Ha, Hd |- *.
  - cbv zeta. destruct (Z.eqb_spec (status_code r) 201) as [H201|H201].
    + unfold bind, set_account_uri. rewrite lift_run.
      destruct (_get_link _ _) as [t|e]; [unfold _json; destruct (json_loads _)|];
        cbn [snd account account_key dicts]; rewrite Ha;
        (split; [reflexivity|split; [exact Hd|intros _; eauto]]).
    + destruct (status_code r =? 409); cbn [snd raise]; rewrite Ha;
        (split; [reflexivity|split; [exact Hd|intros Hne; contradiction]]).
  - rewrite Ha. split; [reflexivity|split; [exact Hd|intros Hne; contradiction]].
Qed.

End frame_facts.

(** X1: no operation other than [register] changes the [Account], whether it
    returns or raises; [register] never changes the account key, and it
    changes [Account.uri] only when the CA answered the registration with
    status 201. *)
Theorem account_is_kept {bh : BracketedHost} {ext : Externals}
    (self : Acme) (w : World) :
  account (snd (get_registration self w)) = account w ∧
  (∀ params, account (snd (update_registration self params w)) = account w) ∧
  (∀ domain, account (snd (new_authorization self domain w)) = account w) ∧
  (∀ uri _type ka,
     account (snd (validate_authorization self uri _type ka w)) = account w) ∧
  (∀ uri, account (snd (get_authorization self uri w)) = account w) ∧
  (∀ csr, account (snd (issue_certificate self csr w)) = account w) ∧
  (∀ email,
     account_key (account (snd (register self email w)))
     = account_key (account w) ∧
     (uri (account (snd (register self email w))) ≠ uri (account w) →
      ∃ r w',
        exchange self (register_payload email) (Some "/acme/new-reg") None w
        = (Return r, w') ∧ status_code r = 201)).
Proof.
  repeat apply conj.
  - rewrite get_registration_world. apply exchange_world.
  - intros params.
    destruct (update_registration_any_world self params w)
      as (l & w0 & Hp & _ & ->).
    destruct (update_registration_params_run params w)
      as (l' & d & w0' & Hp' & _ & Ha & _).
    rewrite Hp in Hp'. inversion Hp'; subst l' w0'.
    rewrite <- Ha. apply exchange_world.
  - intros domain. rewrite new_authorization_world. apply exchange_world.
  - intros uri _type ka. rewrite validate_authorization_world.
    apply exchange_world.
  - intros uri. apply get_authorization_world.
  - intros csr. apply issue_certificate_world.
  - intros email. destruct (register_world self email w) as (Hk & _ & Hu).
    split; assumption.
Qed.

Section params_frame_facts.
Context {bh : BracketedHost} {ext : Externals}.

Lemma dict_truthy_empty : dict_truthy ∅ = false.
Proof. unfold dict_truthy. rewrite bool_decide_eq_true_2; reflexivity. Qed.

(** The first two statements of [update_registration] leave every dict that
    was alive as it was, unless it is the non-empty dict passed as
    [params]. *)
Lemma update_registration_params_frame params w l :
  is_Some (dicts w !! l) →
  (params = Some l → dicts w !! l = Some ∅) →
  dicts (snd (update_registration_params params w)) !! l = dicts w !! l.
Proof.
  intros Hl Hp.
  assert (dicts (mkWorld (account w)
            (alter <["resource":=PStr "reg"]> (fresh (dom (dicts w)))
               (<[fresh (dom (dicts w)):=∅]> (dicts w))) (sent w)) !! l
          = dicts w !! l) as Hnew.
  { cbn [dicts]. rewrite alter_insert_eq, lookup_insert_ne; [reflexivity|].
    intros Heq. pose proof (header_loc_fresh w) as Hf. unfold header_loc in Hf.
    rewrite Heq in Hf. destruct Hl as [d Hd]. congruence. }
  unfold update_registration_params, params_or_new, bind, read, alloc,
    setitem, ret.
  destruct params as [l1|]; [|exact Hnew].
  destruct (dicts w !! l1) as [d1|] eqn:H1; cbn [default from_option id].
  - destruct (dict_truthy d1) eqn:Ht; [|exact Hnew].
    cbn [snd dicts]. rewrite lookup_alter_ne; [reflexivity|].
    intros Heq; subst l1. rewrite (Hp eq_refl) in H1. inversion H1; subst d1.
    rewrite dict_truthy_empty in Ht. discriminate.
  - rewrite dict_truthy_empty. exact Hnew.
Qed.

(** With no [params], or an empty dict, the call works on a new dict that
    holds the resource only. *)
Lemma update_registration_params_new params w :
  (∀ l, params = Some l → dicts w !! l = Some ∅ ∨ dicts w !! l = None) →
  ∃ l0 w0,
    update_registration_params params w = (Return l0, w0) ∧
    dicts w !! l0 = None ∧
    dicts w0 !! l0 = Some registration_payload ∧
    account w0 = account w ∧ sent w0 = sent w.
Proof.
  intros Hp.
  assert (∃ l0 w0,
    (Return (E:=exn) (fresh (dom (dicts w))),
     mkWorld (account w)
       (alter <["resource":=PStr "reg"]> (fresh (dom (dicts w)))
          (<[fresh (dom (dicts w)):=∅]> (dicts w))) (sent w)) = (Return l0, w0) ∧
    dicts w !! l0 = None ∧ dicts w0 !! l0 = Some registration_payload ∧
    account w0 = account w ∧ sent w0 = sent w) as Hnew.
  { eexists _, _. split; [reflexivity|]. cbn [dicts account sent].
    split; [apply header_loc_fresh|].
    rewrite alter_insert_eq, lookup_insert_eq. unfold registration_payload.
    rewrite insert_empty. repeat split. }
  unfold update_registration_params, params_or_new, bind, read, alloc,
    setitem, ret.
  destruct params as [l1|]; [|exact Hnew].
  destruct (Hp l1 eq_refl) as [-> | ->]; cbn [default from_option id];
    rewrite dict_truthy_empty; exact Hnew.
Qed.

End params_frame_facts.

(** X2: no operation changes a dict object that was alive when it was
    called, whether it returns or raises; the one exception is the non-empty
    dict passed to [update_registration] as [params]. *)
Theorem alive_dicts_are_kept {bh : BracketedHost} {ext : Externals}
    (self : Acme) (w : World) (l : positive) :
  is_Some (dicts w !! l) →
  (∀ email, dicts (snd (register self email w)) !! l = dicts w !! l) ∧
  dicts (snd (get_registration self w)) !! l = dicts w !! l ∧
  (∀ params,
     (params = Some l → dicts w !! l = Some ∅) →
     dicts (snd (update_registration self params w)) !! l = dicts w !! l) ∧
  (∀ domain, dicts (snd (new_authorization self domain w)) !! l = dicts w !! l) ∧
  (∀ uri _type ka,
     dicts (snd (validate_authorization self uri _type ka w)) !! l
     = dicts w !! l) ∧
  (∀ uri, dicts (snd (get_authorization self uri w)) !! l = dicts w !! l) ∧
  (∀ csr, dicts (snd (issue_certificate self csr w)) !! l = dicts w !! l).
Proof.
  intros Hl. pose proof (get_headers_old self w l Hl) as Hh.
  repeat apply conj.
  - intros email. destruct (register_world self email w) as (_ & -> & _).
    exact Hh.
  - rewrite get_registration_world.
    destruct (exchange_world self registration_payload (uri (account w)) None w)
      as [_ ->]. exact Hh.
  - intros params Hp.
    destruct (update_registration_any_world self params w)
      as (l0 & w0 & Hr & _ & ->).
    pose proof (update_registration_params_frame params w l Hl Hp) as Hf.
    rewrite Hr in Hf. cbn [snd] in Hf.
    destruct (exchange_world self (default ∅ (dicts w0 !! l0))
                (uri (account w0)) None w0) as [_ ->].
    rewrite get_headers_old by (rewrite Hf; exact Hl). exact Hf.
  - intros domain. rewrite new_authorization_world.
    destruct (exchange_world self (new_authorization_payload domain)
                (Some "/acme/new-authz") None w) as [_ ->]. exact Hh.
  - intros uri _type ka. rewrite validate_authorization_world.
    destruct (exchange_world self (validate_payload _type ka) uri None w)
      as [_ ->]. exact Hh.
  - intros uri. destruct (get_authorization_world self uri w) as [_ ->].
    reflexivity.
  - intros csr. destruct (issue_certificate_world self csr w) as [_ ->].
    exact Hh.
Qed.

Lemma alive_dicts_are_kept_witness :
  dicts (snd (update_registration (bh := no_bracketed_hosts) (ext := ca_accepted)
                example_acme None (world_with_params agreement_params)))
    !! 1%positive
  = Some agreement_params.
Proof.
  refine (proj1 (proj2 (proj2
            (alive_dicts_are_kept (bh := no_bracketed_hosts) (ext := ca_accepted)
               example_acme (world_with_params agreement_params) 1%positive
               (ex_intro _ agreement_params eq_refl)))) None _).
  discriminate.
Defined.

(** ** The requests of a signed operation *)

Section request_facts.
Context {bh : BracketedHost} {ext : Externals}.

(** When the directory and both paths are fine, a signed exchange records
    the nonce request and the POST, answered or not. *)
Lemma exchange_sent self payload target hh w u r0 t :
  fst (path self (Some "/directory") w) = Return u →
  respond (sent w) (directory_request u) = Some r0 →
  fst (path self target w) = Return t →
  sent (snd (exchange self payload target hh w))
  = (sent w ++
      [directory_request u;
       mkRequest POST t (Some (signed_body self r0 payload))
         (post_request_headers hh)])%list.
Proof.
  intros Hu Hr0 Ht. rewrite exchange_run, get_headers_run, Hu, Hr0, Ht, send_run.
  cbn [snd sent]. rewrite <- app_assoc. reflexivity.
Qed.

(** When the directory does not answer, the exchange stops there. *)
Lemma exchange_without_nonce self payload target hh w u :
  fst (path self (Some "/directory") w) = Return u →
  respond (sent w) (directory_request u) = None →
  fst (exchange self payload target hh w) = Raise RequestException ∧
  sent (snd (exchange self payload target hh w))
  = (sent w ++ [directory_request u])%list.
Proof.
  intros Hu Hr. rewrite exchange_run, get_headers_run, Hu, Hr.
  split; reflexivity.
Qed.

(** When the target does not resolve, the nonce has been fetched and nothing
    is posted. *)
Lemma exchange_without_target self payload target hh w u r0 e :
  fst (path self (Some "/directory") w) = Return u →
  respond (sent w) (directory_request u) = Some r0 →
  fst (path self target w) = Raise e →
  fst (exchange self payload target hh w) = Raise e ∧
  sent (snd (exchange self payload target hh w))
  = (sent w ++ [directory_request u])%list.
Proof.
  intros Hu Hr Ht. rewrite exchange_run, get_headers_run, Hu, Hr, Ht.
  split; reflexivity.
Qed.

(** The outcome of an operation whose exchange raised is that exception. *)
Lemma get_registration_raise self w e :
  fst (exchange self registration_payload (uri (account w)) None w) = Raise e →
  fst (get_registration self w) = Raise e.
Proof.
  rewrite get_registration_run.
  destruct (exchange _ _ _ _ _) as [[r|e'] w']; cbn [fst]; [discriminate|].
  intros [= ->]; reflexivity.
Qed.

Lemma new_authorization_raise self domain w e :
  fst (exchange self (new_authorization_payload domain) (Some "/acme/new-authz")
         None w) = Raise e →
  fst (new_authorization self domain w) = Raise e.
Proof.
  rewrite new_authorization_run.
  destruct (exchange _ _ _ _ _) as [[r|e'] w']; cbn [fst]; [discriminate|].
  intros [= ->]; reflexivity.
Qed.

Lemma validate_authorization_raise self uri _type ka w e :
  fst (exchange self (validate_payload _type ka) uri None w) = Raise e →
  fst (validate_authorization self uri _type ka w) = Raise e.
Proof.
  rewrite validate_authorization_run.
  destruct (exchange _ _ _ _ _) as [[r|e'] w']; cbn [fst]; [discriminate|].
  intros [= ->]; reflexivity.
Qed.

Lemma register_raise self email w e :
  fst (exchange self (register_payload email) (Some "/acme/new-reg") None w)
  = Raise e →
  fst (register self email w) = Raise e ∧
  snd (register self email w)
  = snd (exchange self (register_payload email) (Some "/acme/new-reg") None w).
Proof.
  rewrite register_run.
  destruct (exchange _ _ _ _ _) as [[r|e'] w']; cbn [fst]; [discriminate|].
  intros [= ->]; split; reflexivity.
Qed.

Lemma issue_certificate_raise self csr w e :
  fst (exchange self (new_cert_payload csr) (Some "/acme/new-cert")
         (Some pkix_headers) w) = Raise e →
  fst (issue_certificate self csr w) = Raise e ∧
  snd (issue_certificate self csr w)
  = snd (exchange self (new_cert_payload csr) (Some "/acme/new-cert")
           (Some pkix_headers) w).
Proof.
  rewrite issue_certificate_run.
  destruct (exchange _ _ _ _ _) as [[r|e'] w']; cbn [fst]; [discriminate|].
  intros [= ->]; split; reflexivity.
Qed.

Lemma update_registration_raise self params w l w0 e :
  update_registration_params params w = (Return l, w0) →
  is_Some (dicts w0 !! l) →
  fst (exchange self (default ∅ (dicts w0 !! l)) (uri (account w0)) None w0)
  = Raise e →
  fst (update_registration self params w) = Raise e.
Proof.
  intros Hp Hl. rewrite (update_registration_run self params w l w0 Hp Hl).
  destruct (exchange _ _ _ _ _) as [[r|e'] w']; cbn [fst]; [discriminate|].
  intros [= ->]; reflexivity.
Qed.

End request_facts.

(** X3: when the directory endpoint does not answer the nonce request, every
    signed operation raises the exception of [requests]; the nonce request is
    the only request made, so nothing is posted. *)
Theorem nonce_failure_aborts {bh : BracketedHost} {ext : Externals}
    (self : Acme) (w : World) (u : string) :
  fst (path self (Some "/directory") w) = Return u →
  respond (sent w) (directory_request u) = None →
  (∀ email,
     fst (register self email w) = Raise RequestException ∧
     sent (snd (register self email w)) = (sent w ++ [directory_request u])%list) ∧
  (fst (get_registration self w) = Raise RequestException ∧
   sent (snd (get_registration self w)) = (sent w ++ [directory_request u])%list) ∧
  (∀ params,
     fst (update_registration self params w) = Raise RequestException ∧
     sent (snd (update_registration self params w))
     = (sent w ++ [directory_request u])%list) ∧
  (∀ domain,
     fst (new_authorization self domain w) = Raise RequestException ∧
     sent (snd (new_authorization self domain w))
     = (sent w ++ [directory_request u])%list) ∧
  (∀ uri _type ka,
     fst (validate_authorization self uri _type ka w) = Raise RequestException ∧
     sent (snd (validate_authorization self uri _type ka w))
     = (sent w ++ [directory_request u])%list) ∧
  (∀ csr,
     fst (issue_certificate self csr w) = Raise RequestException ∧
     sent (snd (issue_certificate self csr w))
     = (sent w ++ [directory_request u])%list).
Proof.
  intros Hu Hr.
  assert (∀ payload target hh,
            fst (exchange self payload target hh w) = Raise RequestException ∧
            sent (snd (exchange self payload target hh w))
            = (sent w ++ [directory_request u])%list) as Hx
    by (intros; apply exchange_without_nonce; assumption).
  repeat apply conj.
  - intros email. destruct (Hx (register_payload email) (Some "/acme/new-reg") None)
      as [Hf Hs].
    destruct (register_raise self email w _ Hf) as [-> ->]. split; [reflexivity|exact Hs].
  - apply get_registration_raise, Hx.
  - rewrite get_registration_world. apply Hx.
  - intros params.
    destruct (update_registration_any_world self params w)
      as (l & w0 & Hp & Hl & Hw).
    destruct (update_registration_params_run params w)
      as (l' & d & w0' & Hp' & _ & _ & Hs & _).
    rewrite Hp in Hp'. inversion Hp'; subst l' w0'.
    assert (fst (path self (Some "/directory") w0) = Return u) as Hu0
      by (rewrite (path_indep self _ w0 w); exact Hu).
    assert (respond (sent w0) (directory_request u) = None) as Hr0
      by (rewrite Hs; exact Hr).
    destruct (exchange_without_nonce self (default ∅ (dicts w0 !! l))
                (uri (account w0)) None w0 u Hu0 Hr0) as [Hf Hsent].
    split.
    + apply (update_registration_raise self params w l w0 _ Hp Hl Hf).
    + rewrite Hw, Hsent, Hs. reflexivity.
  - intros domain. split.
    + apply new_authorization_raise, Hx.
    + rewrite new_authorization_world. apply Hx.
  - intros uri _type ka. split.
    + apply validate_authorization_raise, Hx.
    + rewrite validate_authorization_world. apply Hx.
  - intros csr.
    destruct (Hx (new_cert_payload csr) (Some "/acme/new-cert") (Some pkix_headers))
      as [Hf Hs].
    destruct (issue_certificate_raise self csr w _ Hf) as [-> ->].
    split; [reflexivity|exact Hs].
Qed.

Lemma nonce_failure_aborts_witness :
  fst (new_authorization (bh := no_bracketed_hosts) (ext := silent_externals)
         example_acme "example.org" world0) = Raise RequestException ∧
  sent (snd (new_authorization (bh := no_bracketed_hosts) (ext := silent_externals)
               example_acme "example.org" world0))
  = [directory_request (ext := silent_externals) "https://ca.example/directory"].
Proof.
  exact (proj1 (proj2 (proj2 (proj2
           (nonce_failure_aborts (bh := no_bracketed_hosts)
              (ext := silent_externals) example_acme world0
              "https://ca.example/directory" eq_refl eq_refl))))
           "example.org").
Defined.

Section sent_facts.
Context {bh : BracketedHost} {ext : Externals}.

(** [register] records what its exchange records. *)
Lemma register_sent self email w :
  sent (snd (register self email w))
  = sent (snd (exchange self (register_payload email) (Some "/acme/new-reg")
                 None w)).
Proof.
  rewrite register_run.
  destruct (exchange _ _ _ _ _) as [[r|e] w']; [|reflexivity].
  cbv zeta. destruct (status_code r =? 201).
  - unfold bind, set_account_uri. rewrite lift_run.
    destruct (_get_link _ _); [unfold _json; destruct (json_loads _)|];
      reflexivity.
  - destruct (status_code r =? 409); reflexivity.
Qed.

(** [issue_certificate] records what its exchange records, and then at most
    the request for the issuer certificate. *)
Lemma issue_certificate_sent self csr w :
  ∃ rest,
    sent (snd (issue_certificate self csr w))
    = (sent (snd (exchange self (new_cert_payload csr) (Some "/acme/new-cert")
                    (Some pkix_headers) w)) ++ rest)%list ∧
    (rest = [] ∨ ∃ c, c ≠ EmptyString ∧ rest = [issuer_request c]).
Proof.
  rewrite issue_certificate_run.
  destruct (exchange _ _ _ _ _) as [[r|e] w']; cbn [snd];
    [|exists []; rewrite List.app_nil_r; auto].
  destruct (status_code r =? 201); [|exists []; rewrite List.app_nil_r; auto].
  destruct (_get_link _ _) as [[c|]|e];
    try solve [exists []; rewrite List.app_nil_r; auto].
  destruct c as [|a c]; cbn [Py.truthy]; [exists []; rewrite List.app_nil_r; auto|].
  exists [issuer_request (String a c)]. split; [reflexivity|].
  right. exists (String a c). split; [discriminate|reflexivity].
Qed.

End sent_facts.

(** X4: on an account that has no URI yet, [get_registration] and
    [update_registration] raise [AttributeError]: the nonce has been fetched
    by then, and nothing is posted. *)
Theorem unregistered_account {bh : BracketedHost} {ext : Externals}
    (self : Acme) (w : World) (u : string) (r0 : Response) :
  uri (account w) = None →
  fst (path self (Some "/directory") w) = Return u →
  respond (sent w) (directory_request u) = Some r0 →
  (fst (get_registration self w) = Raise no_startswith ∧
   sent (snd (get_registration self w)) = (sent w ++ [directory_request u])%list) ∧
  (∀ params,
     fst (update_registration self params w) = Raise no_startswith ∧
     sent (snd (update_registration self params w))
     = (sent w ++ [directory_request u])%list).
Proof.
  intros Hn Hu Hr. split.
  - destruct (exchange_without_target self registration_payload (uri (account w))
                None w u r0 no_startswith Hu Hr) as [Hf Hs].
    { rewrite Hn. reflexivity. }
    split; [apply get_registration_raise, Hf|].
    rewrite get_registration_world. exact Hs.
  - intros params.
    destruct (update_registration_any_world self params w)
      as (l & w0 & Hp & Hl & Hw).
    destruct (update_registration_params_run params w)
      as (l' & d & w0' & Hp' & _ & Ha & Hs & _).
    rewrite Hp in Hp'. inversion Hp'; subst l' w0'.
    assert (fst (path self (Some "/directory") w0) = Return u) as Hu0
      by (rewrite (path_indep self _ w0 w); exact Hu).
    assert (respond (sent w0) (directory_request u) = Some r0) as Hr0
      by (rewrite Hs; exact Hr).
    destruct (exchange_without_target self (default ∅ (dicts w0 !! l))
                (uri (account w0)) None w0 u r0 no_startswith Hu0 Hr0)
      as [Hf Hsent].
    { rewrite Ha, Hn. reflexivity. }
    split.
    + apply (update_registration_raise self params w l w0 _ Hp Hl Hf).
    + rewrite Hw, Hsent, Hs. reflexivity.
Qed.

Lemma unregistered_account_witness :
  fst (get_registration (bh := no_bracketed_hosts) (ext := ca_accepted)
         example_acme world0) = Raise no_startswith ∧
  sent (snd (get_registration (bh := no_bracketed_hosts) (ext := ca_accepted)
               example_acme world0))
  = [directory_request (ext := ca_accepted) "https://ca.example/directory"].
Proof.
  exact (proj1 (unregistered_account (bh := no_bracketed_hosts)
                  (ext := ca_accepted) example_acme world0
                  "https://ca.example/directory" directory_response
                  eq_refl eq_refl eq_refl)).
Defined.

(** X5: a signed operation makes exactly two requests, in this order: the
    GET of the directory endpoint that yields the nonce, then the POST of the
    body signed with that nonce, whatever the status of the answer and
    whether or not the POST is answered at all.  [issue_certificate] makes at
    most one more, the GET of the issuer certificate. *)
Theorem signed_operation_requests {bh : BracketedHost} {ext : Externals}
    (self : Acme) (w : World) (u : string) (r0 : Response) :
  fst (path self (Some "/directory") w) = Return u →
  respond (sent w) (directory_request u) = Some r0 →
  (∀ email t,
     fst (path self (Some "/acme/new-reg") w) = Return t →
     sent (snd (register self email w))
     = (sent w ++
         [directory_request u;
          mkRequest POST t (Some (signed_body self r0 (register_payload email)))
            (post_request_headers None)])%list) ∧
  (∀ t,
     fst (path self (uri (account w)) w) = Return t →
     sent (snd (get_registration self w))
     = (sent w ++
         [directory_request u;
          mkRequest POST t (Some (signed_body self r0 registration_payload))
            (post_request_headers None)])%list) ∧
  (∀ domain t,
     fst (path self (Some "/acme/new-authz") w) = Return t →
     sent (snd (new_authorization self domain w))
     = (sent w ++
         [directory_request u;
          mkRequest POST t
            (Some (signed_body self r0 (new_authorization_payload domain)))
            (post_request_headers None)])%list) ∧
  (∀ uri _type ka t,
     fst (path self uri w) = Return t →
     sent (snd (validate_authorization self uri _type ka w))
     = (sent w ++
         [directory_request u;
          mkRequest POST t
            (Some (signed_body self r0 (validate_payload _type ka)))
            (post_request_headers None)])%list) ∧
  (∀ csr t,
     fst (path self (Some "/acme/new-cert") w) = Return t →
     ∃ rest,
       sent (snd (issue_certificate self csr w))
       = (sent w ++
           [directory_request u;
            mkRequest POST t (Some (signed_body self r0 (new_cert_payload csr)))
              (post_request_headers (Some pkix_headers))] ++ rest)%list ∧
       (rest = [] ∨ ∃ c, c ≠ EmptyString ∧ rest = [issuer_request c])).
Proof.
  intros Hu Hr. repeat apply conj.
  - intros email t Ht. rewrite register_sent.
    apply (exchange_sent self _ _ _ w u r0 t Hu Hr Ht).
  - intros t Ht. rewrite get_registration_world.
    apply (exchange_sent self _ _ _ w u r0 t Hu Hr Ht).
  - intros domain t Ht. rewrite new_authorization_world.
    apply (exchange_sent self _ _ _ w u r0 t Hu Hr Ht).
  - intros uri _type ka t Ht. rewrite validate_authorization_world.
    apply (exchange_sent self _ _ _ w u r0 t Hu Hr Ht).
  - intros csr t Ht.
    destruct (issue_certificate_sent self csr w) as (rest & Hs & Hrest).
    exists rest. split; [|exact Hrest].
    rewrite Hs, (exchange_sent self _ _ _ w u r0 t Hu Hr Ht), <- app_assoc.
    reflexivity.
Qed.

Lemma signed_operation_requests_witness :
  sent (snd (new_authorization (bh := no_bracketed_hosts) (ext := ca_conflict)
               example_acme "example.org" world0))
  = [directory_request (ext := ca_conflict) "https://ca.example/directory";
     mkRequest POST "https://ca.example/acme/new-authz"
       (Some (signed_body (ext := ca_conflict) example_acme directory_response
                (new_authorization_payload "example.org")))
       (post_request_headers (ext := ca_conflict) None)].
Proof.
  exact (proj1 (proj2 (proj2
           (signed_operation_requests (bh := no_bracketed_hosts)
              (ext := ca_conflict) example_acme world0
              "https://ca.example/directory" directory_response
              eq_refl eq_refl)))
           "example.org" "https://ca.example/acme/new-authz" eq_refl).
Defined.

(** X6: with no [params], or with an empty dict, [update_registration] works
    on a dict of its own: the caller's empty dict stays empty, and the
    payload that is signed and posted holds the resource and nothing else. *)
Theorem update_registration_without_params {bh : BracketedHost}
    {ext : Externals} (self : Acme) (params : option positive) (w : World) :
  (∀ l, params = Some l → dicts w !! l = Some ∅) →
  (∀ l, params = Some l →
        dicts (snd (update_registration self params w)) !! l = Some ∅) ∧
  (∀ u r0 t,
     fst (path self (Some "/directory") w) = Return u →
     respond (sent w) (directory_request u) = Some r0 →
     fst (path self (uri (account w)) w) = Return t →
     sent (snd (update_registration self params w))
     = (sent w ++
         [directory_request u;
          mkRequest POST t (Some (signed_body self r0 registration_payload))
            (post_request_headers None)])%list).
Proof.
  intros Hp.
  destruct (update_registration_params_new params w) as
    (l0 & w0 & Hr & Hfresh & Hl0 & Ha & Hs).
  { intros l Hl. left. apply Hp, Hl. }
  assert (is_Some (dicts w0 !! l0)) as Hsome by (rewrite Hl0; eauto).
  assert (snd (update_registration self params w)
          = snd (exchange self registration_payload (uri (account w)) None w0))
    as Hw.
  { rewrite (update_registration_run self params w l0 w0 Hr Hsome), Hl0, Ha.
    cbn [default from_option id].
    destruct (exchange _ _ _ _ _) as [[r|e] w']; reflexivity. }
  split.
  - intros l Hl.
    pose proof (update_registration_params_frame params w l
                  ltac:(rewrite (Hp l Hl); eauto) (Hp l)) as Hf.
    rewrite Hr in Hf. cbn [snd] in Hf.
    rewrite Hw.
    destruct (exchange_world self registration_payload (uri (account w)) None w0)
      as [_ ->].
    rewrite get_headers_old by (rewrite Hf, (Hp l Hl); eauto).
    rewrite Hf. apply Hp, Hl.
  - intros u r0 t Hu Hr0 Ht. rewrite Hw.
    rewrite (exchange_sent self registration_payload (uri (account w)) None w0
               u r0 t).
    + rewrite Hs. reflexivity.
    + rewrite (path_indep self _ w0 w). exact Hu.
    + rewrite Hs. exact Hr0.
    + rewrite (path_indep self _ w0 w). exact Ht.
Qed.

Lemma update_registration_without_params_witness :
  dicts (snd (update_registration (bh := no_bracketed_hosts) (ext := ca_accepted)
                example_acme (Some 1%positive) (world_with_params ∅)))
    !! 1%positive
  = Some ∅.
Proof.
  refine (proj1 (update_registration_without_params (bh := no_bracketed_hosts)
                   (ext := ca_accepted) example_acme (Some 1%positive)
                   (world_with_params ∅) _) 1%positive eq_refl).
  intros l [= <-]. reflexivity.
Defined.

(** X7: [get_authorization] makes one request, a GET without body and with
    the default headers, to the URL its argument resolves to; it leaves the
    account and the dicts as they were, and returns the parsed body whatever
    the status code of the response is. *)
Theorem get_authorization_any_status {bh : BracketedHost} {ext : Externals}
    (self : Acme) (uri : option string) (w : World) (u : string)
    (r : Response) (v : pyval) :
  fst (path self uri w) = Return u →
  respond (sent w) (mkRequest GET u None DEFAULT_HEADERS) = Some r →
  json_loads (content r) = inr v →
  get_authorization self uri w
  = (Return v,
     mkWorld (account w) (dicts w)
       (sent w ++ [mkRequest GET u None DEFAULT_HEADERS])).
Proof.
  intros Hu Hr Hj. rewrite get_authorization_run, get_run, Hu, send_run.
  unfold get_request_headers. rewrite Hr, Hj. reflexivity.
Qed.

Lemma get_authorization_any_status_witness :
  status_code not_found_json = 404 ∧
  fst (get_authorization (bh := no_bracketed_hosts) (ext := ca_not_found)
         example_acme (Some "https://ca.example/acme/authz/3") world0)
  = Return (PDict []).
Proof.
  split; [reflexivity|].
  rewrite (get_authorization_any_status (bh := no_bracketed_hosts)
             (ext := ca_not_found) example_acme
             (Some "https://ca.example/acme/authz/3") world0
             "https://ca.example/acme/authz/3" not_found_json (PDict [])
             eq_refl eq_refl eq_refl).
  reflexivity.
Defined.

(** ** The Link header parser, outcome by outcome *)

Section link_outcomes.

Lemma find_none_has_char c s :
  Py.find c s = None ↔ Py.has_char c s = false.
Proof.
  induction s as [|a s IH]; cbn; [tauto|].
  destruct (Ascii.eqb a c); cbn; [split; discriminate|].
  rewrite <- IH. destruct (Py.find c s); cbn; split; congruence.
Qed.

(** Nothing before the position [find] returns is the character sought. *)
Lemma has_char_take_find c s i :
  Py.find c s = Some i → Py.has_char c (Py.take i s) = false.
Proof.
  revert i. induction s as [|a s IH]; intros i; cbn; [discriminate|].
  destruct (Ascii.eqb a c) eqn:Hac.
  - intros [= <-]. reflexivity.
  - destruct (Py.find c s) as [j|]; cbn; [|discriminate].
    intros [= <-]. cbn. rewrite Hac. apply IH. reflexivity.
Qed.

(** The slice the parser returns holds no ['>']. *)
Lemma slice_without_bracket link i :
  Py.find ">" link = Some i → Py.has_char ">" (Py.slice 1 i link) = false.
Proof.
  destruct link as [|a rest]; [discriminate|]. cbn [Py.find].
  destruct (Ascii.eqb a ">").
  - intros [= <-]. reflexivity.
  - destruct (Py.find ">" rest) as [j|] eqn:Hj; cbn; [|discriminate].
    intros [= <-]. unfold Py.slice. cbn [Py.drop].
    replace (S j - 1)%nat with j by lia. apply has_char_take_find, Hj.
Qed.

End link_outcomes.

(** X8: the three outcomes of [_get_link].  It returns a URL exactly when
    the first entry that contains the relation type has a ['>'], and the URL
    then holds no ['>']; it returns [None] exactly when no entry contains the
    type; it raises exactly when that first entry has no ['>'], and what it
    raises is the [ValueError] of [str.index]. *)
Theorem get_link_outcomes (header : option string) (type : string) :
  (∀ u, _get_link header type = Return (Some u) →
        Py.has_char ">" u = false ∧
        ∃ link, first_matching header type = Some link ∧
                Py.has_char ">" link = true) ∧
  (_get_link header type = Return None ↔ first_matching header type = None) ∧
  (∀ e, _get_link header type = Raise e ↔
        e = ValueError "substring not found" ∧
        ∃ link, first_matching header type = Some link ∧
                Py.has_char ">" link = false).
Proof.
  rewrite get_link_find.
  destruct (first_matching header type) as [link|].
  - destruct (Py.find ">" link) as [i|] eqn:Hf.
    + assert (Py.has_char ">" link = true) as Hh.
      { destruct (Py.has_char ">" link) eqn:Hh; [reflexivity|].
        apply find_none_has_char in Hh. congruence. }
      repeat apply conj.
      * intros u [= <-]. split; [apply slice_without_bracket, Hf|eauto].
      * discriminate.
      * discriminate.
      * intros e. split; [discriminate|].
        intros (_ & link' & [= <-] & Hn). congruence.
    + apply find_none_has_char in Hf. repeat apply conj.
      * discriminate.
      * discriminate.
      * discriminate.
      * intros e. split.
        -- intros [= <-]. split; [reflexivity|eauto].
        -- intros [-> _]. reflexivity.
  - repeat apply conj; try discriminate; try reflexivity.
    + intros e. split; [discriminate|]. intros (_ & link & Hl & _). discriminate.
Qed.

(** ** Status codes outside 100..999 *)

Section more_status_facts.

Lemma four_digit_codes (n : Z) :
  0 ≤ n ≤ 9999 →
  Py.startswith (Py.str_int n) "2"
  = (n =? 2) || (20 <=? n) && (n <=? 29) || (200 <=? n) && (n <=? 299)
    || (2000 <=? n) && (n <=? 2999).
Proof.
  intros Hn.
  assert (forallb (fun k : nat =>
            let n := Z.of_nat k in
            Bool.eqb (Py.startswith (Py.str_int n) "2")
              ((n =? 2) || (20 <=? n) && (n <=? 29) || (200 <=? n) && (n <=? 299)
               || (2000 <=? n) && (n <=? 2999)))
            (seq 0 (Z.to_nat 10000)) = true) as Hall
    by (vm_compute; reflexivity).
  rewrite forallb_forall in Hall.
  specialize (Hall (Z.to_nat n)). cbv zeta in Hall.
  rewrite Z2Nat.id in Hall by lia.
  apply Bool.eqb_prop, Hall, in_seq. lia.
Qed.

End more_status_facts.

(** The codes the status test accepts, up to 9999; it accepts no negative
    code. *)
Lemma starts_with_2_codes (r : Response) :
  (status_code r < 0 → starts_with_2 r = false) ∧
  (0 ≤ status_code r ≤ 9999 →
   (starts_with_2 r = true ↔
    status_code r = 2 ∨ 20 ≤ status_code r ≤ 29 ∨ 200 ≤ status_code r ≤ 299
    ∨ 2000 ≤ status_code r ≤ 2999)).
Proof.
  unfold starts_with_2. split.
  - destruct (status_code r) as [|p|p]; [lia|lia|]. intros _. reflexivity.
  - intros Hn. rewrite (four_digit_codes _ Hn).
    rewrite !orb_true_iff, !andb_true_iff, !Z.leb_le, Z.eqb_eq. tauto.
Qed.

(** X9: the status test of [validate_authorization] (the same test as in
    [get_registration] and [update_registration]) looks at the first
    character of the decimal form only.  Up to 9999 the call returns [True]
    exactly on the codes 2, 20 to 29, 200 to 299 and 2000 to 2999, so a
    four-digit code such as 2000 counts as a success; on a negative code it
    raises [AcmeError]. *)
Theorem lenient_status_codes {bh : BracketedHost} {ext : Externals}
    (self : Acme) (uri : option string) (_type ka : string) (w w' : World)
    (r : Response) :
  exchange self (validate_payload _type ka) uri None w = (Return r, w') →
  (status_code r < 0 →
   fst (validate_authorization self uri _type ka w)
   = Raise (AcmeError (OfResponse r))) ∧
  (0 ≤ status_code r ≤ 9999 →
   (fst (validate_authorization self uri _type ka w) = Return true ↔
    status_code r = 2 ∨ 20 ≤ status_code r ≤ 29 ∨ 200 ≤ status_code r ≤ 299
    ∨ 2000 ≤ status_code r ≤ 2999)).
Proof.
  intros Hx. rewrite validate_authorization_run, Hx. cbn [fst].
  destruct (starts_with_2_codes r) as [Hneg Hpos]. split.
  - intros Hn. rewrite (Hneg Hn). reflexivity.
  - intros Hn. rewrite <- (Hpos Hn).
    destruct (starts_with_2 r); split; congruence.
Qed.

Lemma lenient_status_codes_witness :
  fst (validate_authorization (bh := no_bracketed_hosts) (ext := ca_two_thousand)
         example_acme (Some "https://ca.example/acme/challenge/5") "http-01"
         "token.thumbprint" world0)
  = Return true.
Proof.
  apply (proj2 (lenient_status_codes (bh := no_bracketed_hosts)
                  (ext := ca_two_thousand) example_acme
                  (Some "https://ca.example/acme/challenge/5") "http-01"
                  "token.thumbprint" world0 _ two_thousand eq_refl)).
  - cbn. lia.
  - cbn. lia.
Defined.

(** ** Issuance and registration when a later step fails *)

(** X10: in [issue_certificate], an [up] entry with an empty URL ([<>])
    makes no second request, and the intermediate of the result is then the
    empty str of the header: neither [None] nor bytes. *)
Theorem issue_certificate_empty_url {bh : BracketedHost} {ext : Externals}
    (self : Acme) (csr : string) (w w' : World) (r : Response) (rest : string) :
  exchange self (new_cert_payload csr) (Some "/acme/new-cert")
    (Some pkix_headers) w = (Return r, w') →
  status_code r = 201 →
  first_matching (headers r !! "Link") "up" = Some (String "<" (String ">" rest)) →
  issue_certificate self csr w
  = (Return (mkIssuanceResult (content r) (headers r !! "Location")
               (Some (Str EmptyString))), w').
Proof.
  intros Hx Hs Hm. rewrite issue_certificate_run, Hx, Hs, get_link_find, Hm.
  reflexivity.
Qed.

Lemma issue_certificate_empty_url_witness :
  issue_certificate (bh := no_bracketed_hosts) (ext := ca_empty_up)
    example_acme "csr" world0
  = (Return (mkIssuanceResult "DER" (Some certificate_url) (Some (Str EmptyString))),
     snd (exchange (bh := no_bracketed_hosts) (ext := ca_empty_up) example_acme
            (new_cert_payload "csr") (Some "/acme/new-cert") (Some pkix_headers)
            world0)).
Proof.
  exact (issue_certificate_empty_url (bh := no_bracketed_hosts)
           (ext := ca_empty_up) example_acme "csr" world0 _ issued_empty_up
           (String ";" ("rel=" ++ dq ++ "up" ++ dq)) eq_refl eq_refl eq_refl).
Defined.

(** X11: in [issue_certificate], the certificate of a 201 response is lost
    when a later step fails: if the [up] entry has no ['>'] the call raises
    the [ValueError] of the Link header parser, and if the request for the
    issuer certificate is not answered it raises the exception of
    [requests]; in neither case is an [IssuanceResult] returned. *)
Theorem issue_certificate_late_failure {bh : BracketedHost} {ext : Externals}
    (self : Acme) (csr : string) (w w' : World) (r : Response) :
  exchange self (new_cert_payload csr) (Some "/acme/new-cert")
    (Some pkix_headers) w = (Return r, w') →
  status_code r = 201 →
  (∀ link,
     first_matching (headers r !! "Link") "up" = Some link →
     Py.has_char ">" link = false →
     issue_certificate self csr w
     = (Raise (Builtin (ValueError "substring not found")), w')) ∧
  (∀ c,
     _get_link (headers r !! "Link") "up" = Return (Some c) →
     c ≠ EmptyString →
     respond (sent w') (issuer_request c) = None →
     issue_certificate self csr w
     = (Raise RequestException,
        mkWorld (account w') (dicts w') (sent w' ++ [issuer_request c]))).
Proof.
  intros Hx Hs. split.
  - intros link Hm Hn. apply find_none_has_char in Hn.
    rewrite issue_certificate_run, Hx, Hs, get_link_find, Hm, Hn. reflexivity.
  - intros c Hl Hc Hr.
    rewrite (issue_certificate_fetch self csr w w' r c Hx Hs Hl Hc), Hr.
    reflexivity.
Qed.

Lemma issue_certificate_late_failure_witness :
  fst (issue_certificate (bh := no_bracketed_hosts) (ext := ca_issued_bad_link)
         example_acme "csr" world0)
  = Raise (Builtin (ValueError "substring not found")).
Proof.
  rewrite (proj1 (issue_certificate_late_failure (bh := no_bracketed_hosts)
                    (ext := ca_issued_bad_link) example_acme "csr" world0 _
                    issued_bad_link eq_refl eq_refl)
             "up" eq_refl eq_refl).
  reflexivity.
Defined.

(** X12: [register] stores the account URI before it reads the [Link] header
    and the body.  When the [terms-of-service] entry of a 201 response has no
    ['>'], the call raises the bare [ValueError] of the parser, not an
    [AcmeError], and [Account.uri] holds the [Location] value all the
    same. *)
Theorem register_link_failure {bh : BracketedHost} {ext : Externals}
    (self : Acme) (email : string) (w w' : World) (r : Response) (link : string) :
  exchange self (register_payload email) (Some "/acme/new-reg") None w
    = (Return r, w') →
  status_code r = 201 →
  first_matching (headers r !! "Link") "terms-of-service" = Some link →
  Py.has_char ">" link = false →
  fst (register self email w) = Raise (Builtin (ValueError "substring not found")) ∧
  uri (account (snd (register self email w))) = headers r !! "Location".
Proof.
  intros Hx Hs Hm Hn. apply find_none_has_char in Hn.
  rewrite (register_created_run self email w r w' Hx Hs), get_link_find, Hm, Hn.
  split; reflexivity.
Qed.

Lemma register_link_failure_witness :
  fst (register (bh := no_bracketed_hosts) (ext := ca_created_bad_link)
         example_acme "a@b.example" world0)
  = Raise (Builtin (ValueError "substring not found")) ∧
  uri (account (snd (register (bh := no_bracketed_hosts)
                       (ext := ca_created_bad_link) example_acme "a@b.example"
                       world0)))
  = Some account_url.
Proof.
  exact (register_link_failure (bh := no_bracketed_hosts)
           (ext := ca_created_bad_link) example_acme "a@b.example" world0 _
           created_bad_link "terms-of-service" eq_refl eq_refl eq_refl eq_refl).
Defined.

(** ** From registration to the account resource *)

Section compose_facts.
Context {bh : BracketedHost} {ext : Externals}.

(** What is known once [register] has returned. *)
Lemma register_return_inv self email w res w1 :
  register self email w = (Return res, w1) →
  ∃ r w',
    exchange self (register_payload email) (Some "/acme/new-reg") None w
    = (Return r, w') ∧
    status_code r = 201 ∧
    reg_uri res = headers r !! "Location" ∧
    w1 = mkWorld (mkAccount (account_key (account w')) (headers r !! "Location"))
           (dicts w') (sent w').
Proof.
  rewrite register_run.
  destruct (exchange _ _ _ _ _) as [[r|e] w'] eqn:Hx; [|discriminate].
  cbv zeta. destruct (Z.eqb_spec (status_code r) 201) as [H201|H201].
  - unfold bind, set_account_uri. rewrite lift_run.
    destruct (_get_link _ _) as [t|e]; [|discriminate].
    unfold _json. destruct (json_loads _); [discriminate|].
    unfold ret. intros Heq. inversion Heq; subst. eauto 10.
  - destruct (status_code r =? 409); discriminate.
Qed.

End compose_facts.

(** X13: what [register] returns and what it stores agree, and
    [get_registration] uses it: after a [register] that returned, the
    account URI is the [uri] of the result, and a following
    [get_registration] posts its signed body to the URL that URI resolves
    to; if the 201 response carried no [Location], the account has no URI
    and [get_registration] raises [AttributeError]. *)
Theorem register_then_get_registration {bh : BracketedHost} {ext : Externals}
    (self : Acme) (email : string) (w w1 : World) (res : RegistrationResult) :
  register self email w = (Return res, w1) →
  uri (account w1) = reg_uri res ∧
  (∀ u r0 t,
     fst (path self (Some "/directory") w1) = Return u →
     respond (sent w1) (directory_request u) = Some r0 →
     fst (path self (reg_uri res) w1) = Return t →
     sent (snd (get_registration self w1))
     = (sent w1 ++
         [directory_request u;
          mkRequest POST t (Some (signed_body self r0 registration_payload))
            (post_request_headers None)])%list) ∧
  (∀ u r0,
     reg_uri res = None →
     fst (path self (Some "/directory") w1) = Return u →
     respond (sent w1) (directory_request u) = Some r0 →
     fst (get_registration self w1) = Raise no_startswith).
Proof.
  intros Hreg.
  destruct (register_return_inv self email w res w1 Hreg)
    as (r & w' & Hx & Hs & Hu & ->).
  cbn [account uri]. repeat apply conj.
  - symmetry; exact Hu.
  - intros u r0 t Hd Hr Ht. rewrite get_registration_world. cbn [account uri].
    rewrite Hu in Ht. apply exchange_sent; assumption.
  - intros u r0 Hn Hd Hr. apply get_registration_raise. cbn [account uri].
    rewrite Hu in Hn. rewrite Hn in *.
    apply (exchange_without_target self registration_payload None None _ u r0
             no_startswith Hd Hr eq_refl).
Qed.

Lemma register_then_get_registration_witness :
  uri (account (snd (register (bh := no_bracketed_hosts) (ext := ca_created_json)
                       example_acme "a@b.example" world0)))
  = Some account_url.
Proof.
  exact (proj1 (register_then_get_registration (bh := no_bracketed_hosts)
                  (ext := ca_created_json) example_acme "a@b.example" world0 _
                  (mkRegistrationResult (PDict []) (Some account_url)
                     (Some "https://ca.example/terms"))
                  eq_refl)).
Defined.

(** ** Paths relative to the base *)

(** X14: a path that begins with exactly one slash and holds no tab,
    carriage return or line feed, as the fixed endpoints [/directory],
    [/acme/new-reg], [/acme/new-authz] and [/acme/new-cert] do, resolves to
    a URL on the scheme and authority of an http(s) base. *)
Theorem relative_path_on_origin {bh : BracketedHost} (self : Acme) (p : string)
    (w : World) (b : urllib.ParseResult) :
  single_slash p →
  clean p →
  urllib.urlparse (url self) EmptyString = Return b →
  urllib.scheme b = "https" ∨ urllib.scheme b = "http" →
  Py.truthy (urllib.netloc b) = true →
  ∃ u, path self (Some p) w = (Return u, w) ∧ extends (origin b) u.
Proof.
  intros Hss Hc Hb Hs Hn.
  destruct (urljoin_origin (url self) b p Hb Hs Hn Hss Hc) as (u & Hu & He).
  exists u. split; [|exact He].
  rewrite path_some_run, Hu.
  destruct Hss as (p' & -> & _). reflexivity.
Qed.

Lemma relative_path_on_origin_witness :
  ∃ u, path (bh := no_bracketed_hosts) example_acme (Some "/acme/new-cert") world0
       = (Return u, world0) ∧
       extends "https://ca.example/" u.
Proof.
  refine (relative_path_on_origin (bh := no_bracketed_hosts) example_acme
            "/acme/new-cert" world0 _ _ _ eq_refl (or_introl eq_refl) eq_refl).
  - exists "acme/new-cert". split; [reflexivity|discriminate].
  - repeat split.
Defined.

(** ** Request headers *)

(** X15: the headers of the requests [get] and [post] make.  Every header the
    caller passes is sent as given; for every other name the default is
    sent: the [User-Agent] that names the client and its version, and for
    [post] also [Content-Type: application/json]. *)
Theorem request_headers {bh : BracketedHost} {ext : Externals}
    (self : Acme) (p : option string) (hd : option (gmap string string))
    (w : World) :
  (∀ r w', get self p hd w = (Return r, w') →
     ∃ q, sent w' = (sent w ++ [q])%list ∧ meth q = GET ∧ data q = None ∧
          (∀ k v, hd ≫= (.!! k) = Some v → req_headers q !! k = Some v) ∧
          (∀ k, hd ≫= (.!! k) = None →
                req_headers q !! k = DEFAULT_HEADERS !! k)) ∧
  (∀ body r w', post self p body hd w = (Return r, w') →
     ∃ q, sent w' = (sent w ++ [q])%list ∧ meth q = POST ∧ data q = Some body ∧
          (∀ k v, hd ≫= (.!! k) = Some v → req_headers q !! k = Some v) ∧
          (∀ k, hd ≫= (.!! k) = None →
                req_headers q !! k
                = (<["Content-Type" := "application/json"]> DEFAULT_HEADERS) !! k)) ∧
  DEFAULT_HEADERS !! "User-Agent"
  = Some ("manuale " ++ version ++ " (https://github.com/veeti/manuale)").
Proof.
  assert (∀ (d : gmap string string),
            (∀ k v, hd ≫= (.!! k) = Some v →
                    (match hd with Some h => h ∪ d | None => d end) !! k = Some v) ∧
            (∀ k, hd ≫= (.!! k) = None →
                  (match hd with Some h => h ∪ d | None => d end) !! k = d !! k))
    as Hmerge.
  { intros d. destruct hd as [h|]; cbn.
    - split.
      + intros k v Hk. apply lookup_union_Some_l, Hk.
      + intros k Hk. apply lookup_union_r, Hk.
    - split; [discriminate|reflexivity]. }
  repeat apply conj.
  - intros r w' Hg. rewrite get_run in Hg.
    destruct (fst (path self p w)) as [u|e]; [|discriminate].
    rewrite send_run in Hg. inversion Hg; subst. eexists. split; [reflexivity|].
    cbn [meth data req_headers]. repeat split; apply Hmerge.
  - intros body r w' Hp. rewrite post_run in Hp.
    destruct (fst (path self p w)) as [u|e]; [|discriminate].
    rewrite send_run in Hp. inversion Hp; subst. eexists. split; [reflexivity|].
    cbn [meth data req_headers]. repeat split; apply Hmerge.
  - apply lookup_singleton_eq.
Qed.

(** ** Creating an authorization *)

(** X17: when the CA answers the authorization request with status 201 and a
    body that parses as JSON, [new_authorization] returns the parsed body
    together with the [Location] header of the response (absent if there is
    none), and leaves the world as the exchange left it. *)
Theorem new_authorization_created {bh : BracketedHost} {ext : Externals}
    (self : Acme) (domain : string) (w w' : World) (r : Response) (v : pyval) :
  exchange self (new_authorization_payload domain) (Some "/acme/new-authz")
    None w = (Return r, w') →
  status_code r = 201 →
  json_loads (content r) = inr v →
  new_authorization self domain w
  = (Return (mkNewAuthorizationResult v (headers r !! "Location")), w').
Proof.
  intros Hx Hs Hj. rewrite new_authorization_run, Hx, Hs, Hj. reflexivity.
Qed.

Lemma new_authorization_created_witness :
  fst (new_authorization (bh := no_bracketed_hosts) (ext := ca_created_json)
         example_acme "example.org" world0)
  = Return (mkNewAuthorizationResult (PDict []) (Some account_url)).
Proof.
  rewrite (new_authorization_created (bh := no_bracketed_hosts)
             (ext := ca_created_json) example_acme "example.org" world0 _
             created_json (PDict []) eq_refl eq_refl eq_refl).
  reflexivity.
Defined.

(** ** Inputs that name another host *)

Section other_host_facts.
Context {bh : BracketedHost}.

Lemma has_char_app c a b :
  Py.has_char c (a ++ b) = Py.has_char c a || Py.has_char c b.
Proof.
  induction a as [|x a IH]; [reflexivity|].
  change (String x a ++ b) with (String x (a ++ b)). cbn [Py.has_char].
  rewrite IH, orb_assoc. reflexivity.
Qed.

Lemma find_app_r c a b :
  Py.has_char c a = false →
  Py.find c (a ++ b) = (fun i => (String.length a + i)%nat) <$> Py.find c b.
Proof.
  induction a as [|x a IH]; intros Ha.
  - change (EmptyString ++ b) with b. destruct (Py.find c b); reflexivity.
  - change (String x a ++ b) with (String x (a ++ b)).
    cbn [Py.has_char] in Ha. apply orb_false_elim in Ha as [Hx Ha].
    cbn [Py.find String.length]. rewrite Hx, (IH Ha).
    destruct (Py.find c b); reflexivity.
Qed.

Lemma take_app_length a b : Py.take (String.length a) (a ++ b) = a.
Proof.
  induction a as [|x a IH]; [destruct b; reflexivity|].
  change (String x a ++ b) with (String x (a ++ b)).
  cbn [Py.take String.length]. rewrite IH. reflexivity.
Qed.

Lemma drop_app_length a b : Py.drop (String.length a) (a ++ b) = b.
Proof.
  induction a as [|x a IH]; [reflexivity|].
  change (String x a ++ b) with (String x (a ++ b)).
  cbn [Py.drop String.length]. exact IH.
Qed.

Lemma length_app_s a b :
  String.length (a ++ b) = (String.length a + String.length b)%nat.
Proof.
  induction a as [|x a IH]; [reflexivity|].
  change (String x a ++ b) with (String x (a ++ b)).
  cbn [String.length]. rewrite IH. reflexivity.
Qed.

Lemma clean_app a b : clean a → clean b → clean (a ++ b).
Proof.
  intros (H1 & H2 & H3) (H4 & H5 & H6). unfold clean.
  rewrite !has_char_app, H1, H2, H3, H4, H5, H6. auto.
Qed.

(** [_splitnetloc] cuts such a host off the path that follows it. *)
Lemma splitnetloc_plain_host h q :
  plain_host h → rooted q →
  urllib._splitnetloc (String "/" (String "/" (h ++ q))) 2 = (h, q).
Proof.
  intros (_ & _ & Hs & Hq & Hf & _) [q' ->].
  unfold urllib._splitnetloc, Py.find_from, Py.slice.
  cbn [Py.drop fold_left String.length].
  rewrite (find_app_r "/" h _ Hs), (find_app_r "?" h _ Hq),
    (find_app_r "#" h _ Hf), length_app_s.
  cbn [Py.find Ascii.eqb Bool.eqb fmap option_fmap option_map String.length].
  set (L := String.length h).
  assert (∀ o : option nat,
    match (fun i => (2 + i)%nat) <$> ((fun i => (L + i)%nat) <$> o) with
    | Some wdelim => Nat.min (S (S L)) wdelim
    | None => S (S L)
    end = S (S L)) as Hmin.
  { intros [i|]; cbn; [lia|reflexivity]. }
  replace (Nat.min (S (S (L + S (String.length q')))) (2 + (L + 0)))
    with (S (S L)) by lia.
  change (Ascii.eqb "/" "?") with false. change (Ascii.eqb "/" "#") with false.
  cbv iota.
  rewrite (Hmin (S <$> Py.find "?" q')).
  rewrite (Hmin (S <$> Py.find "#" q')).
  cbn [Py.drop]. replace (S (S L) - 2)%nat with L by lia.
  subst L. rewrite take_app_length, drop_app_length. reflexivity.
Qed.

(** [urlparse] on two slashes, a host and a path: the host is the netloc. *)
Lemma urlparse_other_host h q sch :
  plain_host h → rooted q → clean q → sch = "https" ∨ sch = "http" →
  ∃ u, urllib.urlparse ("//" ++ h ++ q) sch = Return u ∧
       urllib.scheme u = sch ∧ urllib.netloc u = h ∧ rooted (urllib.path u).
Proof.
  intros Hh Hr Hc Hs.
  pose proof (splitnetloc_plain_host h q Hh Hr) as Hsplit.
  destruct Hh as (_ & Hch & _ & _ & _ & Hlb & Hrb).
  assert (clean (String "/" (String "/" (h ++ q)))) as Hcp.
  { apply (clean_app "//" (h ++ q)); [repeat split|apply clean_app; assumption]. }
  change ("//" ++ h ++ q) with (String "/" (String "/" (h ++ q))).
  set (p := String "/" (String "/" (h ++ q))) in *.
  assert (∃ url query fragment,
            urllib.urlsplit p sch = Return (sch, h, url, query, fragment) ∧
            rooted url) as (url & query & frag & Hsp & Hru).
  { unfold urllib.urlsplit.
    change (Py.lstrip_by urllib.c0_or_space p) with p.
    rewrite (scheme_argument_clean sch Hs), (remove_unsafe_clean _ Hcp).
    assert ((match Py.find ":" p, p with
        | Some (S i' as i), String c0 _ =>
            if urllib.ascii_alpha c0 then
              if Py.all_chars (fun c => Py.has_char c urllib.scheme_chars)
                   (Py.take i p)
              then (Py.lower (Py.take i p), Py.drop (S i) p)
              else (sch, p)
            else (sch, p)
        | _, _ => (sch, p) end) = (sch, p)) as ->.
    { subst p. destruct (Py.find ":" _) as [[|i]|]; reflexivity. }
    change (String.eqb (Py.take 2 p) "//") with true. cbv iota.
    rewrite Hsplit, Hlb, Hrb. cbn [andb orb negb].
    destruct (Py.has_char "#" q) eqn:Hf.
    - pose proof (rooted_split1 "#" _ ltac:(discriminate) Hr) as Hr1.
      destruct (Py.split1 "#" q) as [url1 frag]. cbn [fst] in Hr1.
      destruct (Py.has_char "?" url1).
      + pose proof (rooted_split1 "?" _ ltac:(discriminate) Hr1) as Hr2.
        destruct (Py.split1 "?" url1) as [url2 query]. eauto.
      + eauto.
    - destruct (Py.has_char "?" q).
      + pose proof (rooted_split1 "?" _ ltac:(discriminate) Hr) as Hr2.
        destruct (Py.split1 "?" q) as [url2 query]. eauto.
      + eauto. }
  unfold urllib.urlparse. rewrite Hsp.
  destruct (urllib.mem sch urllib.uses_params && Py.has_char ";" url).
  - pose proof (rooted_splitparams url Hru) as Hr'.
    destruct (urllib._splitparams url) as [url' params].
    eexists. repeat split. exact Hr'.
  - eexists. repeat split. exact Hru.
Qed.

(** Joining two slashes, a host and a path against an http(s) base gives a
    URL on that host. *)
Lemma urljoin_other_host base b h q :
  urllib.urlparse base EmptyString = Return b →
  urllib.scheme b = "https" ∨ urllib.scheme b = "http" →
  plain_host h → rooted q → clean q →
  ∃ r, urllib.urljoin base ("//" ++ h ++ q) = Return r ∧
       extends (urllib.scheme b ++ "://" ++ h ++ "/") r.
Proof.
  intros Hb Hs Hh Hr Hc.
  destruct (urlparse_other_host h q (urllib.scheme b) Hh Hr Hc Hs)
    as (u & Hu & Hsu & Hnu & Hpu).
  assert (Py.truthy (urllib.scheme b) = true) as Hst
    by (destruct Hs as [-> | ->]; reflexivity).
  assert (Py.truthy h = true) as Hht.
  { destruct Hh as (Hne & _). destruct h; [contradiction|reflexivity]. }
  unfold urllib.urljoin.
  assert (Py.truthy base = true) as ->.
  { destruct base; [|reflexivity]. cbv in Hb. inversion Hb; subst b.
    destruct Hs; discriminate. }
  change (Py.truthy ("//" ++ h ++ q)) with true. cbn [negb].
  rewrite Hb, Hu, Hsu, Hnu, String.eqb_refl.
  assert (urllib.mem (urllib.scheme b) urllib.uses_relative = true) as ->
    by (destruct Hs as [-> | ->]; reflexivity).
  assert (urllib.mem (urllib.scheme b) urllib.uses_netloc = true) as ->
    by (destruct Hs as [-> | ->]; reflexivity).
  rewrite Hht. cbn [negb orb andb].
  eexists. split; [reflexivity|].
  apply urlunparse_origin; try assumption.
  apply rooted_truthy, Hpu.
Qed.

End other_host_facts.

(** X16: [Acme.path] does not keep every input on the base's host.  An input
    that begins with two slashes and a host name, and an input that starts
    with [http] whose path component does, resolve to a URL on that host,
    under the scheme of the base. *)
Theorem path_to_other_host {bh : BracketedHost} (self : Acme) (w : World)
    (b : urllib.ParseResult) (h q : string) :
  urllib.urlparse (url self) EmptyString = Return b →
  urllib.scheme b = "https" ∨ urllib.scheme b = "http" →
  plain_host h → rooted q → clean q →
  (∃ u, path self (Some ("//" ++ h ++ q)) w = (Return u, w) ∧
        extends (urllib.scheme b ++ "://" ++ h ++ "/") u) ∧
  (∀ p pr,
     Py.startswith p "http" = true →
     urllib.urlparse p EmptyString = Return pr →
     urllib.path pr = "//" ++ h ++ q →
     ∃ u, path self (Some p) w = (Return u, w) ∧
          extends (urllib.scheme b ++ "://" ++ h ++ "/") u).
Proof.
  intros Hb Hs Hh Hr Hc.
  destruct (urljoin_other_host (url self) b h q Hb Hs Hh Hr Hc) as (u & Hu & He).
  split.
  - exists u. split; [|exact He]. rewrite path_some_run, Hu. reflexivity.
  - intros p pr Hp Hpr Hpath. exists u. split; [|exact He].
    rewrite path_some_run, Hp, Hpr, Hpath, Hu. reflexivity.
Qed.

Lemma path_to_other_host_witness :
  ∃ u, path (bh := no_bracketed_hosts) example_acme
         (Some "https://attacker.example//evil.example/x") world0
       = (Return u, world0) ∧
       extends "https://evil.example/" u.
Proof.
  refine (proj2 (path_to_other_host (bh := no_bracketed_hosts) example_acme
                   world0 _ "evil.example" "/x" eq_refl (or_introl eq_refl)
                   _ _ _)
            "https://attacker.example//evil.example/x" _ eq_refl eq_refl
            eq_refl).
  - repeat split. discriminate.
  - exists "x". reflexivity.
  - repeat split.
Defined.

(** ** Where the requests on CA-supplied URLs go *)

Section target_facts.
Context {bh : BracketedHost} {ext : Externals}.

(** [get_authorization] records one GET to the resolved URI, answered or
    not. *)
Lemma get_authorization_sent self uri w t :
  fst (path self uri w) = Return t →
  sent (snd (get_authorization self uri w))
  = (sent w ++ [mkRequest GET t None DEFAULT_HEADERS])%list.
Proof.
  intros Ht. rewrite get_authorization_run, get_run, Ht, send_run.
  unfold get_request_headers.
  destruct (respond _ _); [destruct (json_loads _)|]; reflexivity.
Qed.

(** [update_registration] records the nonce request and the POST to the
    resolved account URI. *)
Lemma update_registration_sent self params w u r0 t :
  fst (path self (Some "/directory") w) = Return u →
  respond (sent w) (directory_request u) = Some r0 →
  fst (path self (uri (account w)) w) = Return t →
  ∃ payload,
    sent (snd (update_registration self params w))
    = (sent w ++
        [directory_request u;
         mkRequest POST t (Some (signed_body self r0 payload))
           (post_request_headers None)])%list.
Proof.
  intros Hu Hr Ht.
  destruct (update_registration_any_world self params w)
    as (l & w0 & Hp & Hl & Hw).
  destruct (update_registration_params_run params w)
    as (l' & d & w0' & Hp' & _ & Ha & Hs & _).
  rewrite Hp in Hp'. inversion Hp'; subst l' w0'.
  exists (default ∅ (dicts w0 !! l)). rewrite Hw.
  rewrite (exchange_sent self _ (uri (account w0)) None w0 u r0 t).
  - rewrite Hs. reflexivity.
  - rewrite (path_indep self _ w0 w). exact Hu.
  - rewrite Hs. exact Hr.
  - rewrite Ha, (path_indep self _ w0 w). exact Ht.
Qed.

(** The directory endpoint is on the origin of an http(s) base. *)
Lemma directory_on_origin self w b :
  urllib.urlparse (url self) EmptyString = Return b →
  urllib.scheme b = "https" ∨ urllib.scheme b = "http" →
  Py.truthy (urllib.netloc b) = true →
  ∃ u, fst (path self (Some "/directory") w) = Return u ∧ extends (origin b) u.
Proof.
  intros Hb Hs Hn.
  destruct (urljoin_origin (url self) b "/directory" Hb Hs Hn) as (u & Hu & He).
  - exists "directory". split; [reflexivity|discriminate].
  - repeat split.
  - exists u. rewrite path_some_run, Hu. split; [reflexivity|exact He].
Qed.

End target_facts.

(** C5, as stated, fails: the CA answers the issuance with a [Link] header
    whose [up] relation points to another host; the request for the issuer
    certificate is sent to that URL as it is, not to the base's host. *)
Lemma request_targets_counterexample :
  url example_acme = "https://ca.example/" ∧
  last (sent (snd (issue_certificate (bh := no_bracketed_hosts)
                     (ext := ca_off_host) example_acme "csr" world0)))
  = Some (issuer_request (ext := ca_off_host) "https://attacker.example/issuer") ∧
  ¬ extends "https://ca.example/"
      (target (issuer_request (ext := ca_off_host)
                 "https://attacker.example/issuer")).
Proof.
  split; [reflexivity|split; [vm_compute; reflexivity|]].
  intros [rest Hr]. discriminate Hr.
Qed.

(** C5, amended: for every CA-supplied absolute URL that starts with [http]
    and whose path component begins with exactly one slash, the requests the
    driver's operations make on it (the GET of [get_authorization], the POST
    of [validate_authorization], and the POSTs of [get_registration] and
    [update_registration] when it is the account URI) are sent to one and the
    same URL, the one [Acme.path] resolves it to, which begins with the
    scheme and authority of the http(s) base, whatever the scheme and host
    of the supplied URL; the nonce request that precedes each POST goes to
    the base as well.  The exception is the unauthenticated GET that fetches
    the intermediate certificate during issuance: it is sent to the URL
    taken from the [Link] header as it is. *)
Theorem request_targets {bh : BracketedHost} {ext : Externals}
    (self : Acme) (w : World) (p : string) (pr b : urllib.ParseResult) :
  Py.startswith p "http" = true →
  urllib.urlparse p EmptyString = Return pr →
  single_slash (urllib.path pr) →
  urllib.urlparse (url self) EmptyString = Return b →
  urllib.scheme b = "https" ∨ urllib.scheme b = "http" →
  Py.truthy (urllib.netloc b) = true →
  ∃ t u,
    fst (path self (Some p) w) = Return t ∧ extends (origin b) t ∧
    fst (path self (Some "/directory") w) = Return u ∧ extends (origin b) u ∧
    sent (snd (get_authorization self (Some p) w))
    = (sent w ++ [mkRequest GET t None DEFAULT_HEADERS])%list ∧
    (∀ r0,
       respond (sent w) (directory_request u) = Some r0 →
       (∀ _type ka,
          sent (snd (validate_authorization self (Some p) _type ka w))
          = (sent w ++
              [directory_request u;
               mkRequest POST t
                 (Some (signed_body self r0 (validate_payload _type ka)))
                 (post_request_headers None)])%list) ∧
       (uri (account w) = Some p →
        sent (snd (get_registration self w))
        = (sent w ++
            [directory_request u;
             mkRequest POST t (Some (signed_body self r0 registration_payload))
               (post_request_headers None)])%list ∧
        ∀ params, ∃ payload,
          sent (snd (update_registration self params w))
          = (sent w ++
              [directory_request u;
               mkRequest POST t (Some (signed_body self r0 payload))
                 (post_request_headers None)])%list)) ∧
    (∀ csr r w' c,
       exchange self (new_cert_payload csr) (Some "/acme/new-cert")
         (Some pkix_headers) w = (Return r, w') →
       status_code r = 201 →
       _get_link (headers r !! "Link") "up" = Return (Some c) →
       c ≠ EmptyString →
       sent (snd (issue_certificate self csr w))
       = (sent w' ++ [issuer_request c])%list ∧
       target (issuer_request c) = c).
Proof.
  intros Hp Hpr Hss Hb Hs Hn.
  destruct (path_origin self p w pr b Hp Hpr Hss Hb Hs Hn) as (t & Ht & Het).
  destruct (directory_on_origin self w b Hb Hs Hn) as (u & Hu & Heu).
  assert (fst (path self (Some p) w) = Return t) as Ht' by (rewrite Ht; reflexivity).
  exists t, u. repeat apply conj; try assumption.
  - apply get_authorization_sent, Ht'.
  - intros r0 Hr. split.
    + intros _type ka. rewrite validate_authorization_world.
      apply (exchange_sent self _ _ _ w u r0 t Hu Hr Ht').
    + intros Hacc. split.
      * rewrite get_registration_world, Hacc.
        apply (exchange_sent self _ _ _ w u r0 t Hu Hr Ht').
      * intros params. apply (update_registration_sent self params w u r0 t Hu Hr).
        rewrite Hacc. exact Ht'.
  - intros csr r w' c Hx Hst Hl Hc.
    rewrite (issue_certificate_fetch self csr w w' r c Hx Hst Hl Hc).
    split; reflexivity.
Qed.


Lemma request_targets_witness :
  sent (snd (get_authorization (bh := no_bracketed_hosts) (ext := ca_accepted)
               example_acme (Some challenge_url) world0))
  = [mkRequest GET "https://ca.example/acme/challenge/5" None
       (DEFAULT_HEADERS (ext := ca_accepted))] ∧
  sent (snd (validate_authorization (bh := no_bracketed_hosts)
               (ext := ca_accepted) example_acme (Some challenge_url)
               "http-01" "token.thumbprint" world0))
  = [directory_request (ext := ca_accepted) "https://ca.example/directory";
     mkRequest POST "https://ca.example/acme/challenge/5"
       (Some (signed_body (ext := ca_accepted) example_acme directory_response
                (validate_payload "http-01" "token.thumbprint")))
       (post_request_headers (ext := ca_accepted) None)].
Proof.
  assert (urllib.urlparse (bh := no_bracketed_hosts) challenge_url EmptyString
          = Return (urllib.mkParseResult "https" "attacker.example"
                      "/acme/challenge/5" EmptyString EmptyString EmptyString))
    as Hpr by (vm_compute; reflexivity).
  assert (urllib.urlparse (bh := no_bracketed_hosts) (url example_acme) EmptyString
          = Return (urllib.mkParseResult "https" "ca.example" "/" EmptyString
                      EmptyString EmptyString))
    as Hb by (vm_compute; reflexivity).
  assert (Py.startswith challenge_url "http" = true) as Hs by (vm_compute; reflexivity).
  assert (single_slash "/acme/challenge/5") as Hss
    by (exists "acme/challenge/5"; split; [reflexivity|discriminate]).
  pose proof (request_targets (bh := no_bracketed_hosts) (ext := ca_accepted)
              example_acme world0 challenge_url _ _ Hs Hpr Hss
              Hb (or_introl eq_refl) eq_refl) as H.
  destruct H as (t & u & Ht & _ & Hu & _ & Hget & Hpost & _).
  vm_compute in Ht. injection Ht as <-.
  vm_compute in Hu. injection Hu as <-.
  split; [exact Hget|].
  exact (proj1 (Hpost directory_response ltac:(vm_compute; reflexivity)) "http-01" "token.thumbprint").
Defined.
